(** * llmlink.model.Agent: a ReAct agent loop

    A shallow embedding of [src/llmlink/model/Agent.py] and the properties of
    its prompt construction, tool dispatch, output parser and run loop.

    Python values are embedded as follows.
    - A [str] is the list of its Unicode code points ([N]).
    - A raised exception is a value of [exn]; a computation that may raise
      returns a [res].
    - The language model and the tools are callables of the environment:
      they read and write a state [World] the agent knows nothing about.
    - What the agent does to its environment (printing, calling the model,
      calling a tool) is recorded, in order, in a trace of [event]s. *)

From Stdlib Require Import NArith String Ascii.
From stdpp Require Import base option list gmap.

Local Open Scope N_scope.
Local Open Scope list_scope.

(** ** Python strings *)

Module PyStr.

Definition char := N.
Definition str := list char.

(** [py] reads a literal the way the Python source writes it: the escapes
    [\n], [\t], [\r], [\'] and [\\] stand for one code point each. *)
Fixpoint py (s : string) : str :=
  match s with
  | EmptyString => []
  | String c s' =>
      let n := N_of_ascii c in
      if n =? 92 then
        match s' with
        | EmptyString => [n]
        | String d s'' =>
            let k := N_of_ascii d in
            if k =? 110 then 10 :: py s''
            else if k =? 116 then 9 :: py s''
            else if k =? 114 then 13 :: py s''
            else if k =? 39 then 39 :: py s''
            else if k =? 92 then 92 :: py s''
            else n :: k :: py s''
        end
      else n :: py s'
  end.

Arguments py : simpl never.

Definition colon : char := 58.
Definition newline : char := 10.
Definition lbrace : char := 123.
Definition rbrace : char := 125.

(** [x in s] for a one-character [x]. *)
Definition contains_char (c : char) (s : str) : bool :=
  existsb (N.eqb c) s.

(** [s.startswith(p)] *)
Fixpoint startswith (p s : str) : bool :=
  match p, s with
  | [], _ => true
  | _ :: _, [] => false
  | a :: p', b :: s' => (a =? b) && startswith p' s'
  end.

(** [needle in hay] *)
Fixpoint contains (needle hay : str) : bool :=
  startswith needle hay ||
  match hay with
  | [] => false
  | _ :: hay' => contains needle hay'
  end.

(** [sep.join(parts)] *)
Fixpoint join (sep : str) (parts : list str) : str :=
  match parts with
  | [] => []
  | [p] => p
  | p :: ps => p ++ sep ++ join sep ps
  end.

(** [s.split(sep)] for a one-character separator: the pieces between the
    separators, always at least one piece. *)
Fixpoint split (sep : char) (s : str) : list str :=
  match s with
  | [] => [[]]
  | c :: s' =>
      if c =? sep then [] :: split sep s'
      else match split sep s' with
           | [] => [[c]]
           | p :: ps => (c :: p) :: ps
           end
  end.

(** The text before the first [sep] (all of [s] when there is none) and the
    text after it. *)
Fixpoint before (sep : char) (s : str) : str :=
  match s with
  | [] => []
  | c :: s' => if c =? sep then [] else c :: before sep s'
  end.

Fixpoint after (sep : char) (s : str) : str :=
  match s with
  | [] => []
  | c :: s' => if c =? sep then s' else after sep s'
  end.

(** The characters [str.strip()] removes (Unicode white space). *)
Definition isspace (c : char) : bool :=
  ((9 <=? c) && (c <=? 13)) || ((28 <=? c) && (c <=? 32))
  || (c =? 133) || (c =? 160) || (c =? 5760)
  || ((8192 <=? c) && (c <=? 8202))
  || (c =? 8232) || (c =? 8233) || (c =? 8239) || (c =? 8287) || (c =? 12288).

Fixpoint lstrip (s : str) : str :=
  match s with
  | [] => []
  | c :: s' => if isspace c then lstrip s' else s
  end.

Definition rstrip (s : str) : str := rev (lstrip (rev s)).

(** [s.strip()] *)
Definition strip (s : str) : str := rstrip (lstrip s).

(** The line boundaries of [str.splitlines()]. *)
Definition islinebreak (c : char) : bool :=
  ((10 <=? c) && (c <=? 13)) || ((28 <=? c) && (c <=? 30))
  || (c =? 133) || (c =? 8232) || (c =? 8233).

(** [s.splitlines()]: the lines without their boundaries; a carriage return
    followed by a line feed is one boundary, and a boundary at the very end
    opens no further line. *)
Fixpoint splitlines (s : str) : list str :=
  match s with
  | [] => []
  | c :: s' =>
      if islinebreak c then
        match s' with
        | d :: s'' => if (c =? 13) && (d =? 10) then [] :: splitlines s''
                      else [] :: splitlines s'
        | [] => [[]]
        end
      else match splitlines s' with
           | [] => [[c]]
           | l :: ls => (c :: l) :: ls
           end
  end.

(** No [{] and no [}] in [s]. *)
Definition brace_free (s : str) : bool :=
  forallb (fun c => negb ((c =? lbrace) || (c =? rbrace))) s.

(** Lower-case hexadecimal, [width] digits. *)
Definition hexdigit (d : N) : char :=
  if d <? 10 then 48 + d else 87 + d.

Fixpoint hex (width : nat) (n : N) : str :=
  match width with
  | O => []
  | S w => hex w (n / 16) ++ [hexdigit (n mod 16)]
  end.

(** [str(n)] of a non-negative integer of at most [digits] digits. *)
Fixpoint decimal_aux (digits : nat) (n : N) (acc : str) : str :=
  match digits with
  | O => acc
  | S digits' =>
      let acc' := (48 + n mod 10) :: acc in
      if n / 10 =? 0 then acc' else decimal_aux digits' (n / 10) acc'
  end.

Definition decimal (n : N) : str := decimal_aux 10 n [].

(** A text of one line: no line boundary in it.  A text whose only line
    boundaries are line feeds. *)
Definition one_line (s : str) : bool :=
  forallb (fun c => negb (islinebreak c)) s.

Definition only_newlines (s : str) : bool :=
  forallb (fun c => negb (islinebreak c) || (c =? newline)) s.

End PyStr.
Export PyStr.

(** ** Exceptions and results *)

(** The exception classes that occur.  [OtherException] stands for any other
    subclass of [Exception]; [KeyboardInterrupt] and [SystemExit] derive from
    [BaseException] only, so [except Exception] does not catch them. *)
Inductive exn_class : Type :=
| TypeError | ValueError | IndexError | KeyError | OtherException
| KeyboardInterrupt | SystemExit.

Definition is_Exception (c : exn_class) : bool :=
  match c with
  | KeyboardInterrupt | SystemExit => false
  | _ => true
  end.

Definition is_LookupError (c : exn_class) : bool :=
  match c with
  | IndexError | KeyError => true
  | _ => false
  end.

(** An exception object: its class and what [str(e)] gives. *)
Record exn : Type := mkExn { exn_cls : exn_class; exn_str : str }.

Inductive res (A : Type) : Type :=
| Ok (a : A)
| Raise (e : exn).
Arguments Ok {A} a.
Arguments Raise {A} e.

Definition res_bind {A B} (r : res A) (k : A -> res B) : res B :=
  match r with
  | Ok a => k a
  | Raise e => Raise e
  end.

Definition res_map {A B} (f : A -> B) (r : res A) : res B :=
  res_bind r (fun a => Ok (f a)).

(** [l[i]] on a list, for a non-negative [i]. *)
Definition getitem {A} (l : list A) (i : nat) : res A :=
  match l !! i with
  | Some x => Ok x
  | None => Raise (mkExn IndexError (py "list index out of range"))
  end.

(** ** The values [parse_output] returns

    A dict with [str] keys and values, in insertion order, or a plain [str]. *)
Inductive pyval : Type :=
| Dict (d : list (str * str))
| Str (s : str).

Fixpoint dict_get (d : list (str * str)) (key : str) : option str :=
  match d with
  | [] => None
  | (k, v) :: d' => if decide (k = key) then Some v else dict_get d' key
  end.

(** ** Printing and raising: the monad of the parser

    A computation yields the lines it printed and a result; after a raise
    nothing more is printed. *)
Definition P (A : Type) : Type := list str * res A.

Definition p_ret {A} (a : A) : P A := ([], Ok a).

Definition p_bind {A B} (m : P A) (k : A -> P B) : P B :=
  match m with
  | (out, Ok a) => let '(out', r) := k a in (out ++ out', r)
  | (out, Raise e) => (out, Raise e)
  end.

Definition p_lift {A} (r : res A) : P A := ([], r).

Definition p_print (s : str) : P unit := ([s], Ok tt).

Declare Scope p_scope.
Delimit Scope p_scope with P.
Notation "'do' x <- m ; k" := (p_bind m (fun x => k))
  (at level 10, x name, m at level 100, k at level 200) : p_scope.
Notation "'do' '_' <- m ; k" := (p_bind m (fun _ => k))
  (at level 10, m at level 100, k at level 200) : p_scope.

(** ** [Agent.parse_output] *)

(** [range(a, b)] *)
Definition range (a b : nat) : list nat := seq a (b - a).

(** The inner loop (lines 146-150): append the lines from [idx + 2] on, up to
    the first that starts with [Observation:]. *)
Fixpoint collect_input (lines : list str) (rng : list nat) (tool_input : str)
  : res str :=
  match rng with
  | [] => Ok tool_input
  | action_idx :: rng' =>
      res_bind (getitem lines action_idx) (fun l =>
      if startswith (py "Observation:") l then Ok tool_input
      else collect_input lines rng' (tool_input ++ py "\n" ++ l))
  end.

Definition no_action_warning : str :=
  py "Warning: No parsable action detected. Be sure to ".

Definition action_input_warning : str :=
  py "Possible problem parsing action input".

(** The two dict literals (lines 153 and 157). *)
Definition tool_record (tool tool_input thought : str) : pyval :=
  Dict [(py "Action", py "tool"); (py "Tool", tool); (py "Input", tool_input);
        (py "Thought", thought)].

Definition answer_record (final_answer thought : str) : pyval :=
  Dict [(py "Action", py "answer"); (py "Answer", final_answer);
        (py "Thought", thought)].

(** The branch taken on an [Action] line (lines 139-153). *)
Definition parse_action (lines : list str) (idx : nat) (line : str) : P pyval :=
  (let tool := strip (join (py ":") (drop 1 (split colon line))) in
   do next <- p_lift (getitem lines (idx + 1));
   do head <- p_lift (getitem (split colon next) 0);
   do _ <- (if bool_decide (strip head <> py "Action Input")
            then p_print action_input_warning else p_ret tt);
   do next' <- p_lift (getitem lines (idx + 1));
   do seg <- p_lift (getitem (split colon next') 1);
   do tool_input <-
     p_lift (collect_input lines (range (idx + 2) (length lines)) (strip seg));
   p_ret (tool_record tool tool_input (join (py "\n") (take idx lines))))%P.

(** The branch taken on a [Final Answer] line (lines 156-157). *)
Definition parse_answer (lines : list str) (idx : nat) (line : str) : P pyval :=
  (do seg <- p_lift (getitem (split colon line) 1);
   let final_answer := strip seg in
   p_ret (answer_record final_answer (join (py "\n") (take idx lines))))%P.

(** The outer loop (lines 133-158) over the indices still to visit. *)
Fixpoint parse_loop (output : str) (lines : list str) (rng : list nat)
  : P pyval :=
  match rng with
  | [] => p_ret (Str (output ++ py "\n" ++ no_action_warning))
  | idx :: rng' =>
      (do line <- p_lift (getitem lines idx);
       if contains_char colon line then
         do head <- p_lift (getitem (split colon line) 0);
         let type_of_response := strip head in
         if bool_decide (type_of_response = py "Action") then
           parse_action lines idx line
         else if bool_decide (type_of_response = py "Final Answer") then
           parse_answer lines idx line
         else parse_loop output lines rng'
       else parse_loop output lines rng')%P
  end.

Definition parse_output (output : str) : P pyval :=
  let lines := splitlines output in
  parse_loop output lines (range 0 (length lines)).

(** *** Notions used to state what the parser does *)

(** A line the outer loop passes over: no colon, or a token before the first
    colon that is neither marker. *)
Definition passed_over (line : str) : Prop :=
  contains_char colon line = true ->
  strip (before colon line) <> py "Action"
  /\ strip (before colon line) <> py "Final Answer".

(** The tool input as the inner loop builds it from the lines that follow the
    input line. *)
Fixpoint input_of (acc : str) (rest : list str) : str :=
  match rest with
  | [] => acc
  | l :: rest' =>
      if startswith (py "Observation:") l then acc
      else input_of (acc ++ py "\n" ++ l) rest'
  end.

(** ** The environment

    What the repository does not fix: the state the model and the tools act
    on, Python's table of printable code points above ASCII (used by [repr]),
    and the [repr] of langchain's [Tool] class, which depends on the installed
    release. *)
Class Env : Type := {
  World : Type;
  unicode_isprintable : char -> bool;
  Tool_class_repr : str
}.

Section Model.
Context `{Env}.

(** *** [repr] and [str] of the values that get printed *)

Definition squote : char := 39.
Definition dquote : char := 34.
Definition backslash : char := 92.

Definition repr_char (quote c : char) : str :=
  if (c =? quote) || (c =? backslash) then [backslash; c]
  else if c =? 9 then py "\\t"
  else if c =? 10 then py "\\n"
  else if c =? 13 then py "\\r"
  else if (c <? 32) || (c =? 127) then py "\\x" ++ hex 2 c
  else if c <? 127 then [c]
  else if unicode_isprintable c then [c]
  else if c <=? 255 then py "\\x" ++ hex 2 c
  else if c <=? 65535 then py "\\u" ++ hex 4 c
  else py "\\U" ++ hex 8 c.

(** [repr(s)] of a [str]: double quotes only when [s] has a single quote and
    no double quote. *)
Definition repr_str (s : str) : str :=
  let quote :=
    if contains_char squote s && negb (contains_char dquote s)
    then dquote else squote in
  [quote] ++ concat (map (repr_char quote) s) ++ [quote].

(** [str(l)] of a list of [str]. *)
Definition str_of_list (l : list str) : str :=
  py "[" ++ join (py ", ") (map repr_str l) ++ py "]".

(** [str(d)] of a dict from [str] to [str], in insertion order. *)
Definition str_of_dict (d : list (str * str)) : str :=
  py "{" ++ join (py ", ")
              (map (fun kv => repr_str kv.1 ++ py ": " ++ repr_str kv.2) d)
  ++ py "}".

(** [v[key]] for a [str] key: a dict looks the key up, a [str] accepts no
    [str] index. *)
Definition subscript (v : pyval) (key : str) : res str :=
  match v with
  | Dict d =>
      match dict_get d key with
      | Some x => Ok x
      | None => Raise (mkExn KeyError (repr_str key))
      end
  | Str _ =>
      Raise (mkExn TypeError (py "string indices must be integers, not 'str'"))
  end.

(** *** [str.format] with the keywords [question] and [tool_names]

    The template is read left to right.  [{{] and [}}] are literal braces; a
    [{] opens a replacement field that runs to the next [}].  No positional
    argument is passed, so a field with an empty or numeric name raises
    [IndexError]; a name other than the two keywords raises [KeyError]; a
    stray brace raises [ValueError].

    The result is [None] where this model stops: a field with a conversion
    ([!]), a format specification ([:]), an attribute or index access ([.],
    [[]), or a numeric name that needs a table or a word size to decide. *)

Inductive fmt_mode : Type :=
| InText
| InField (name : str).

Definition emit (pre : str) (r : option (res str)) : option (res str) :=
  option_map (res_map (app pre)) r.

Definition fmt_raise (c : exn_class) (msg : str) : option (res str) :=
  Some (Raise (mkExn c msg)).

Definition is_ascii_digit (c : char) : bool := (48 <=? c) && (c <=? 57).

Definition decimal_value (s : str) : N :=
  fold_left (fun acc c => 10 * acc + (c - 48)) s 0.

(** The value a field name stands for. *)
Definition field_value (question : str) (tool_names : list str) (name : str)
  : option (res str) :=
  if contains_char 46 name then None
  else if decide (name = []) then
    fmt_raise IndexError
      (py "Replacement index 0 out of range for positional args tuple")
  else if forallb (fun c => is_ascii_digit c || (128 <=? c)) name then
    if forallb is_ascii_digit name && (decimal_value name <? 2 ^ 31) then
      fmt_raise IndexError
        (py "Replacement index " ++ decimal (decimal_value name)
           ++ py " out of range for positional args tuple")
    else None
  else if decide (name = py "question") then Some (Ok question)
  else if decide (name = py "tool_names") then Some (Ok (str_of_list tool_names))
  else fmt_raise KeyError (repr_str name).

Fixpoint format_from (question : str) (tool_names : list str)
    (m : fmt_mode) (t : str) : option (res str) :=
  match m, t with
  | InText, [] => Some (Ok [])
  | InText, c :: t' =>
      if c =? lbrace then
        match t' with
        | [] => fmt_raise ValueError (py "Single '{' encountered in format string")
        | d :: t'' =>
            if d =? lbrace then emit [lbrace] (format_from question tool_names InText t'')
            else format_from question tool_names (InField []) t'
        end
      else if c =? rbrace then
        match t' with
        | [] => fmt_raise ValueError (py "Single '}' encountered in format string")
        | d :: t'' =>
            if d =? rbrace then emit [rbrace] (format_from question tool_names InText t'')
            else fmt_raise ValueError (py "Single '}' encountered in format string")
        end
      else emit [c] (format_from question tool_names InText t')
  | InField _, [] =>
      fmt_raise ValueError (py "expected '}' before end of string")
  | InField name, c :: t' =>
      if c =? rbrace then
        match field_value question tool_names name with
        | Some (Ok v) => emit v (format_from question tool_names InText t')
        | other => other
        end
      else if c =? lbrace then
        fmt_raise ValueError (py "unexpected '{' in field name")
      else if (c =? 91) || (c =? colon) || (c =? 33) then None
      else format_from question tool_names (InField (name ++ [c])) t'
  end.

(** [template.format(question=question, tool_names=tool_names)] *)
Definition format (template question : str) (tool_names : list str)
  : option (res str) :=
  format_from question tool_names InText template.

(** *** Tools, the agent and the arguments of its constructor *)

(** A langchain [Tool]: calling it runs [func] on the input. *)
Record Tool : Type := mkTool {
  name : str;
  description : str;
  func : str -> World -> res str * World
}.

Record Agent : Type := mkAgent {
  _llm : str -> World -> res str * World;
  _tools : list Tool;
  _verbose : bool
}.

(** The objects a caller may pass for [tools] and [verbose]. *)
#[warnings="-register-all"]
Inductive pyobj : Type :=
| ObjNone
| ObjBool (b : bool)
| ObjInt (z : Z)
| ObjStr (s : str)
| ObjTool (t : Tool)
| ObjList (l : list pyobj).

(** [str(type(v))] *)
Definition type_repr (v : pyobj) : str :=
  match v with
  | ObjNone => py "<class 'NoneType'>"
  | ObjBool _ => py "<class 'bool'>"
  | ObjInt _ => py "<class 'int'>"
  | ObjStr _ => py "<class 'str'>"
  | ObjTool _ => Tool_class_repr
  | ObjList _ => py "<class 'list'>"
  end.

Definition as_Tool (v : pyobj) : option Tool :=
  match v with
  | ObjTool t => Some t
  | _ => None
  end.

(** [isinstance(v, Tool)] *)
Definition isinstance_Tool (v : pyobj) : bool :=
  match v with
  | ObjTool _ => true
  | _ => false
  end.

(** The check of the [tools] setter (lines 50-61): what ends up in
    [self._tools]. *)
Definition tools_value (value : pyobj) : res (list Tool) :=
  match value with
  | ObjList l =>
      if negb (forallb isinstance_Tool l) then
        Raise (mkExn TypeError (py "All tools must be langchain Tool objects"))
      else Ok (omap as_Tool l)
  | ObjTool t => Ok [t]
  | _ =>
      Raise (mkExn TypeError
               (py "tools must be langchain Tool or list of Tools, got "
                  ++ type_repr value))
  end.

(** The check of the [verbose] setter (lines 70-73). *)
Definition verbose_value (value : pyobj) : res bool :=
  match value with
  | ObjBool b => Ok b
  | _ =>
      Raise (mkExn TypeError (py "verbose must be bool, got " ++ type_repr value))
  end.

Definition set_llm (self : Agent) (value : str -> World -> res str * World)
  : res Agent :=
  Ok (mkAgent value (_tools self) (_verbose self)).

Definition set_tools (self : Agent) (value : pyobj) : res Agent :=
  res_bind (tools_value value) (fun ts =>
  Ok (mkAgent (_llm self) ts (_verbose self))).

Definition set_verbose (self : Agent) (value : pyobj) : res Agent :=
  res_bind (verbose_value value) (fun v =>
  Ok (mkAgent (_llm self) (_tools self) v)).

(** Modelled from the spec: [BaseModel] ([llmlink/model/BaseModel.py]) is not
    among the sources.  The construction contract of the spec names the two
    type checks as the only ways construction fails, so [super().__init__()]
    is taken to do nothing. *)
Definition BaseModel_init : res unit := Ok tt.

(** [Agent(llm, tools, verbose)] (lines 24-33): the three assignments go
    through the setters, in this order. *)
Definition Agent_init (llm : str -> World -> res str * World)
    (tools verbose : pyobj) : res Agent :=
  res_bind BaseModel_init (fun _ =>
  res_bind (tools_value tools) (fun ts =>
  res_bind (verbose_value verbose) (fun v =>
  Ok (mkAgent llm ts v)))).

(** The arguments the constructor is meant for: one tool or a list of
    tools, and a bool. *)
Definition tool_or_tools (v : pyobj) : bool :=
  match v with
  | ObjTool _ => true
  | ObjList l => forallb isinstance_Tool l
  | _ => false
  end.

Definition isinstance_bool (v : pyobj) : bool :=
  match v with
  | ObjBool _ => true
  | _ => false
  end.

(** The tools and the flag such arguments denote. *)
Definition tools_of (v : pyobj) : list Tool :=
  match v with
  | ObjTool t => [t]
  | ObjList l => omap as_Tool l
  | _ => []
  end.

Definition bool_of (v : pyobj) : bool :=
  match v with
  | ObjBool b => b
  | _ => false
  end.

(** *** The derived properties *)

Definition tool_entry (tool : Tool) : str :=
  name tool ++ py ": " ++ description tool.

Definition tool_descriptions (self : Agent) : str :=
  join (py "\n\n") (map tool_entry (_tools self)).

(** The dict comprehension: a later tool replaces an earlier one of the same
    name. *)
Definition tool_dict (self : Agent) : gmap str Tool :=
  foldl (fun d tool => <[name tool := tool]> d) ∅ (_tools self).

Definition tool_names (self : Agent) : list str :=
  map name (_tools self).

(** *** [create_prompt] *)

Definition PREFIX : str :=
  py "Answer the following question as best you can. You have access to the following tools:".

Definition SUFFIX : str := py "Begin\n\nQuestion: {question}\n".

Definition INSTRUCTIONS : str :=
  py "Use the following format:\n\nQuestion: the input question you must answer\nThought: you should always think about what to do next\nAction: the action to take, should be one of {tool_names}\nAction Input: The input to the action\nObservation: the result of the action\n... (this Thought/Action/Action Input/Observation can repeat N times)\nThought: I now know the final answer\nFinal Answer: the final answer to the original input question".

Definition create_prompt (self : Agent)
    (question prefix suffix instructions : str) : option (res str) :=
  format (prefix ++ py "\n\n" ++ tool_descriptions self ++ py "\n\n"
            ++ instructions ++ py "\n\n" ++ suffix)
         question (tool_names self).

(** *** Effects: the state a method runs in

    The agent object itself is part of the state, so that a method that
    assigned to one of its attributes would show. *)

Inductive event : Type :=
| Print (text : str)
| CallLLM (prompt : str)
| CallTool (tool_name tool_input : str).

Record state : Type := mkState {
  self : Agent;
  world : World;
  trace : list event
}.

Definition M (A : Type) : Type := state -> res A * state.

Definition m_ret {A} (a : A) : M A := fun st => (Ok a, st).

Definition m_bind {A B} (m : M A) (k : A -> M B) : M B :=
  fun st =>
    match m st with
    | (Ok a, st') => k a st'
    | (Raise e, st') => (Raise e, st')
    end.

Definition m_lift {A} (r : res A) : M A := fun st => (r, st).

(** Read an attribute or property of [self]. *)
Definition m_self {A} (f : Agent -> A) : M A := fun st => (Ok (f (self st)), st).

Definition log (e : event) (st : state) : state :=
  mkState (self st) (world st) (trace st ++ [e]).

(** [print(s)] *)
Definition m_print (s : str) : M unit := fun st => (Ok tt, log (Print s) st).

Fixpoint m_prints (ss : list str) : M unit :=
  match ss with
  | [] => m_ret tt
  | s :: ss' => m_bind (m_print s) (fun _ => m_prints ss')
  end.

(** What the parser printed goes to the trace. *)
Definition m_parse (p : P pyval) : M pyval :=
  fun st =>
    (p.2, mkState (self st) (world st) (trace st ++ map Print p.1)).

(** Call a callable of the environment, recording the call. *)
Definition m_call (f : str -> World -> res str * World) (arg : str) (e : event)
  : M str :=
  fun st =>
    let '(r, w) := f arg (world st) in
    (r, mkState (self st) w (trace st ++ [e])).

(** [try: body except Exception as e: handler(e)] *)
Definition m_try {A} (body : M A) (handler : exn -> M A) : M A :=
  fun st =>
    match body st with
    | (Raise e, st') =>
        if is_Exception (exn_cls e) then handler e st' else (Raise e, st')
    | ok => ok
    end.

Declare Scope m_scope.
Delimit Scope m_scope with M.
Notation "'do' x <- m ; k" := (m_bind m (fun x => k))
  (at level 10, x name, m at level 100, k at level 200) : m_scope.
Notation "'do' '_' <- m ; k" := (m_bind m (fun _ => k))
  (at level 10, m at level 100, k at level 200) : m_scope.

(** *** [run_tool] (lines 104-121)

    A [Tool] object is truthy, so [if the_tool] tests that the lookup found
    one. *)
Definition run_tool (tool_name tool_input : str) : M str :=
  (do d <- m_self tool_dict;
   match d !! tool_name with
   | Some the_tool =>
       m_try (m_call (func the_tool) tool_input (CallTool tool_name tool_input))
             (fun e => m_ret (py "Tool encountered an error: " ++ exn_str e))
   | None => m_ret (py "No tool with the name " ++ tool_name ++ py " found")
   end)%M.

(** *** [run] (lines 160-230) *)

(** The dict [run] returns. *)
Record result : Type := mkResult { response : str; full_text : str }.

(** How one pass through the body of [while True] ends. *)
Inductive step : Type :=
| Continue (prompt : str)
| Return (r : result).

(** [if self.verbose:] followed by prints. *)
Definition when_verbose (ss : list str) : M unit :=
  (do v <- m_self _verbose;
   if (v : bool) then m_prints ss else m_ret tt)%M.

(** [print(action)] *)
Definition str_of_val (v : pyval) : str :=
  match v with
  | Dict d => str_of_dict d
  | Str s => s
  end.

Definition no_results : str := py "Tool returned no results".

(** The second half of the loop body (lines 204-230): act on the parsed
    [action] with the current [prompt]. *)
Definition dispatch (prompt : str) (action : pyval) : M step :=
  (do kind <- m_lift (subscript action (py "Action"));
   if bool_decide (kind = py "tool") then
     do tool <- m_lift (subscript action (py "Tool"));
     do input <- m_lift (subscript action (py "Input"));
     do tool_response <- run_tool tool input;
     let tool_response :=
       if bool_decide (tool_response = []) then no_results else tool_response in
     do thought <- m_lift (subscript action (py "Thought"));
     do tool' <- m_lift (subscript action (py "Tool"));
     do input' <- m_lift (subscript action (py "Input"));
     let prompt := prompt ++ thought ++ py "\nAction: " ++ tool'
                     ++ py "\nAction Input: " ++ input'
                     ++ py "\nObservation: " ++ tool_response ++ py "\n" in
     do _ <- when_verbose [py "NEW PROMPT:"; py "\n"; prompt; py "\n\n"];
     m_ret (Continue prompt)
   else
     do kind' <- m_lift (subscript action (py "Action"));
     if bool_decide (kind' = py "answer") then
       do thought <- m_lift (subscript action (py "Thought"));
       do answer <- m_lift (subscript action (py "Answer"));
       let prompt := prompt ++ thought ++ py "\nFinal Answer: " ++ answer in
       do _ <- when_verbose [py "FINAL TEXT:"; py "\n"; prompt];
       do answer' <- m_lift (subscript action (py "Answer"));
       m_ret (Return (mkResult answer' prompt))
     else m_ret (Continue prompt))%M.

(** One pass through the loop body (lines 188-230) with the current
    [prompt]: call the model, parse its response, act on it. *)
Definition run_body (prompt : str) : M step :=
  (do llm <- m_self _llm;
   do response <- m_call llm prompt (CallLLM prompt);
   do _ <- when_verbose [py "MODEL RESPONSE:"; py "\n"; response; py "\n\n"];
   do action <- m_parse (parse_output response);
   do _ <- when_verbose [py "PARSED ACTION:"; py "\n"; str_of_val action; py "\n\n"];
   dispatch prompt action)%M.

(** How a call of [run] ends.  [while True] has no bound: [Running] is the
    loop after as many passes as the fuel allowed, about to call the model
    with [prompt].  [Unmodelled] is a prompt template outside the model of
    [str.format]. *)
Inductive outcome : Type :=
| Returned (r : result) (st : state)
| Raised (e : exn) (st : state)
| Running (prompt : str) (st : state)
| Unmodelled.

Fixpoint run_loop (fuel : nat) (prompt : str) (st : state) : outcome :=
  match fuel with
  | O => Running prompt st
  | S fuel' =>
      match run_body prompt st with
      | (Ok (Continue prompt'), st') => run_loop fuel' prompt' st'
      | (Ok (Return r), st') => Returned r st'
      | (Raise e, st') => Raised e st'
      end
  end.

Definition run (fuel : nat) (question : str) (st : state) : outcome :=
  match create_prompt (self st) question PREFIX SUFFIX INSTRUCTIONS with
  | None => Unmodelled
  | Some (Raise e) => Raised e st
  | Some (Ok prompt) =>
      let st1 :=
        (when_verbose [py "INITIAL PROMPT:"; py "\n"; prompt; py "\n\n"] st).2 in
      run_loop fuel prompt st1
  end.

(** *** Notions used to state what [run] does *)

(** The state after [if self.verbose:] and the prints [ss]. *)
Definition verbose_log (ss : list str) (st : state) : state :=
  if _verbose (self st)
  then mkState (self st) (world st) (trace st ++ map Print ss)
  else st.

(** The state in which the parsed action is acted on: the model was called
    with [prompt] and left the world [w], the parser printed [warn]. *)
Definition after_parse (prompt response : str) (warn : list str)
    (action : pyval) (w : World) (st : state) : state :=
  let st1 := mkState (self st) w (trace st ++ [CallLLM prompt]) in
  let st2 :=
    verbose_log [py "MODEL RESPONSE:"; py "\n"; response; py "\n\n"] st1 in
  let st3 := mkState (self st2) (world st2) (trace st2 ++ map Print warn) in
  verbose_log [py "PARSED ACTION:"; py "\n"; str_of_val action; py "\n\n"] st3.

(** The prompt after a tool call and after a final answer (lines 212 and
    221). *)
Definition observation (tool_response : str) : str :=
  if bool_decide (tool_response = []) then no_results else tool_response.

Definition tool_prompt (prompt thought tool input tool_response : str) : str :=
  prompt ++ thought ++ py "\nAction: " ++ tool ++ py "\nAction Input: " ++ input
    ++ py "\nObservation: " ++ observation tool_response ++ py "\n".

Definition answer_prompt (prompt thought answer : str) : str :=
  prompt ++ thought ++ py "\nFinal Answer: " ++ answer.

Definition is_llm_call (e : event) : bool :=
  match e with
  | CallLLM _ => true
  | _ => false
  end.

Definition is_tool_call (e : event) : bool :=
  match e with
  | CallTool _ _ => true
  | _ => false
  end.

Fixpoint count_events (f : event -> bool) (tr : list event) : nat :=
  match tr with
  | [] => 0
  | e :: tr' => (if f e then 1 else 0) + count_events f tr'
  end.

(** The agent object is left as it was. *)
Definition keeps_self {A} (m : M A) : Prop :=
  forall st, self (m st).2 = self st.

(** A pass of the loop only ever extends [prompt]. *)
Definition extends_prompt (prompt : str) (m : M step) : Prop :=
  forall st s st', m st = (Ok s, st') ->
    match s with
    | Continue prompt' => prompt `prefix_of` prompt'
    | Return r => prompt `prefix_of` full_text r
    end.

(** The bindings of the agent, and what is derived from them, agree in two
    states. *)
Definition same_bindings (st st' : state) : Prop :=
  _llm (self st') = _llm (self st)
  /\ _tools (self st') = _tools (self st)
  /\ _verbose (self st') = _verbose (self st)
  /\ tool_dict (self st') = tool_dict (self st)
  /\ tool_names (self st') = tool_names (self st).

(** One block of the transcript: what a tool call adds to the prompt
    (line 212), with the observation as written. *)
Definition block_text (b : str * str * str * str) : str :=
  let '(thought, tool, input, obs) := b in
  thought ++ py "\nAction: " ++ tool ++ py "\nAction Input: " ++ input
    ++ py "\nObservation: " ++ obs ++ py "\n".

Definition block_obs (b : str * str * str * str) : str :=
  let '(_, _, _, obs) := b in obs.

(** The agent with its verbosity switched off. *)
Definition quiet (a : Agent) : Agent := mkAgent (_llm a) (_tools a) false.

(** The calls in a trace, without what was printed. *)
Definition calls (tr : list event) : list event :=
  List.filter (fun e => match e with Print _ => false | _ => true end) tr.

(** Two states that differ at most in the verbosity of the agent and in
    what has been printed. *)
Definition same_but_prints (st st' : state) : Prop :=
  quiet (self st) = quiet (self st')
  /\ world st = world st'
  /\ calls (trace st) = calls (trace st').

(** The final state of a call of [run], when the call is in the model. *)
Definition final_state (o : outcome) : option state :=
  match o with
  | Returned _ st | Raised _ st | Running _ st => Some st
  | Unmodelled => None
  end.

(** A method that gives the same result, and leaves states that differ at
    most in verbosity and prints, when started in two such states. *)
Definition respects_prints {A} (m : M A) : Prop :=
  forall st st', same_but_prints st st' ->
    (m st).1 = (m st').1 /\ same_but_prints (m st).2 (m st').2.

(** Two calls of [run] that ended the same way, in states that differ at
    most in verbosity and prints. *)
Definition same_outcome (o o' : outcome) : Prop :=
  match o, o' with
  | Returned r st, Returned r' st' => r = r' /\ same_but_prints st st'
  | Raised e st, Raised e' st' => e = e' /\ same_but_prints st st'
  | Running p st, Running p' st' => p = p' /\ same_but_prints st st'
  | Unmodelled, Unmodelled => True
  | _, _ => False
  end.

(** The characters a plain field name is made of: no brace, no [[], no
    [:], no [!]. *)
Definition field_char (c : char) : bool :=
  negb ((c =? rbrace) || (c =? lbrace) || (c =? 91) || (c =? colon) || (c =? 33)).

End Model.

(** ** Fixtures for the examples

    The world counts the calls of the model: the first call answers with a
    tool call, every later one with a final answer. *)

Definition example_env : Env :=
  {| World := nat;
     unicode_isprintable := fun _ => true;
     Tool_class_repr := py "<class 'langchain.tools.Tool'>" |}.

Definition stub_llm (prompt : str) (calls : nat) : res str * nat :=
  (Ok (match calls with
       | O => py "Thought: I should search\nAction: Search\nAction Input: capital of France"
       | S _ => py "Thought: done\nFinal Answer: Paris"
       end),
   S calls).

Definition confused_llm (prompt : str) (calls : nat) : res str * nat :=
  (Ok (py "no colons here"), S calls).

Definition search_tool : @Tool example_env :=
  @mkTool example_env (py "Search") (py "Look things up")
         (fun input calls => (Ok (py "Paris"), calls)).

Definition broken_tool : @Tool example_env :=
  @mkTool example_env (py "Broken") (py "Always fails")
         (fun input calls => (Raise (mkExn OtherException (py "boom")), calls)).

Definition example_agent : @Agent example_env :=
  @mkAgent example_env stub_llm [search_tool; broken_tool] false.

Definition confused_agent : @Agent example_env :=
  @mkAgent example_env confused_llm [search_tool] false.

Definition templating_tool : @Tool example_env :=
  @mkTool example_env (py "Eval") (py "Evaluates {expr}")
          (fun input calls => (Ok input, calls)).

Definition templating_agent : @Agent example_env :=
  @mkAgent example_env stub_llm [templating_tool] false.

(** A model that reads its responses off a script, one per call. *)
Definition scripted_llm (script : list str) (prompt : str) (calls : nat)
  : res str * nat :=
  (Ok (nth calls script (py "Final Answer: done")), S calls).

Definition failing_llm (prompt : str) (calls : nat) : res str * nat :=
  (Raise (mkExn OtherException (py "model offline")), calls).

Definition interrupted_tool : @Tool example_env :=
  @mkTool example_env (py "Wait") (py "Waits for input")
          (fun input calls => (Raise (mkExn KeyboardInterrupt []), calls)).

Definition scripted_agent (script : list str) (verbose : bool)
  : @Agent example_env :=
  @mkAgent example_env (scripted_llm script)
           [search_tool; broken_tool; interrupted_tool] verbose.

(** Two tools under one name. *)
Definition shadow_tool : @Tool example_env :=
  @mkTool example_env (py "Search") (py "Looks elsewhere")
          (fun input calls => (Ok (py "Lyon"), calls)).

Definition shadowed_agent : @Agent example_env :=
  @mkAgent example_env stub_llm [search_tool; broken_tool; shadow_tool] false.

Definition failing_agent : @Agent example_env :=
  @mkAgent example_env failing_llm [search_tool] false.

(** The prompt [run] starts from. *)
Definition initial_prompt (a : @Agent example_env) (question : str) : str :=
  match create_prompt a question PREFIX SUFFIX INSTRUCTIONS with
  | Some (Ok prompt) => prompt
  | _ => []
  end.

Definition capital_question : str := py "What is the capital of France?".

Definition start (a : @Agent example_env) : @state example_env :=
  @mkState example_env a O [].

(** The state a call of [run] ended in. *)
Definition final (o : @outcome example_env) : @state example_env :=
  match final_state o with
  | Some st => st
  | None => @mkState example_env example_agent O []
  end.

(** ** Python strings: examples and lemmas *)

Example split_ex : split colon (py "a: b:c") = [py "a"; py " b"; py "c"].
Proof. reflexivity. Qed.

Example splitlines_ex :
  splitlines (py "a\n\nb\r\nc\n") = [py "a"; []; py "b"; py "c"].
Proof. reflexivity. Qed.

Example strip_ex : strip (py "  a b \t") = py "a b".
Proof. reflexivity. Qed.

Example decimal_ex : decimal 2147483647 = py "2147483647" /\ decimal 0 = py "0".
Proof. split; vm_compute; reflexivity. Qed.

Example parse_search :
  parse_output (py "Thought: I should search\nAction: Search\nAction Input: capital of France\nObservation: ignored")
  = ([], Ok (tool_record (py "Search") (py "capital of France")
                          (py "Thought: I should search"))).
Proof. vm_compute. reflexivity. Qed.

Example parse_multiline_input :
  parse_output (py "Action: Search\nAction Input: line one\nextra line\nObservation: x")
  = ([], Ok (tool_record (py "Search") (py "line one\nextra line") [])).
Proof. vm_compute. reflexivity. Qed.

Example parse_paris :
  parse_output (py "Thought: done\nFinal Answer: Paris")
  = ([], Ok (answer_record (py "Paris") (py "Thought: done"))).
Proof. vm_compute. reflexivity. Qed.

Lemma split_before_after (sep : char) (s : str) :
  split sep s =
  before sep s :: (if contains_char sep s then split sep (after sep s) else []).
Proof.
  induction s as [|c s IH]; [reflexivity|].
  cbn [split before after contains_char existsb].
  rewrite (N.eqb_sym sep c).
  destruct (c =? sep); [reflexivity|].
  rewrite IH. cbn [orb]. reflexivity.
Qed.

Lemma split_head (sep : char) (s : str) :
  getitem (split sep s) 0 = Ok (before sep s).
Proof. rewrite split_before_after. reflexivity. Qed.

Lemma join_split (sep : char) (s : str) : join [sep] (split sep s) = s.
Proof.
  induction s as [|c s IH]; [reflexivity|].
  cbn [split].
  destruct (c =? sep) eqn:E.
  - apply N.eqb_eq in E. subst c.
    destruct (split sep s) as [|p ps] eqn:Es.
    + rewrite split_before_after in Es. discriminate.
    + cbn [join] in *. rewrite IH. reflexivity.
  - destruct (split sep s) as [|p ps] eqn:Es.
    + rewrite split_before_after in Es. discriminate.
    + destruct ps; cbn [join] in *; rewrite <- IH; reflexivity.
Qed.

(** Joining what follows the first piece gives back the text after the first
    separator. *)
Lemma join_split_tail (sep : char) (s : str) :
  join [sep] (drop 1 (split sep s)) = after sep s.
Proof.
  rewrite split_before_after. cbn [drop].
  destruct (contains_char sep s) eqn:E.
  - apply join_split.
  - induction s as [|c s IH]; [reflexivity|].
    cbn [contains_char existsb after] in *.
    rewrite (N.eqb_sym sep c) in E.
    destruct (c =? sep); [discriminate|]. apply IH, E.
Qed.

Lemma startswith_app (p s : str) : startswith p (p ++ s) = true.
Proof.
  induction p as [|c p IH]; [reflexivity|].
  cbn. rewrite N.eqb_refl, IH. reflexivity.
Qed.

Lemma contains_app (x a b : str) : contains x (a ++ x ++ b) = true.
Proof.
  induction a as [|c a IH].
  - cbn [app]. pose proof (startswith_app x b) as E.
    destruct (x ++ b); cbn [contains]; rewrite E; reflexivity.
  - cbn [app contains]. rewrite IH. apply orb_true_r.
Qed.

Lemma join_elem (sep x : str) (l : list str) :
  x ∈ l -> exists a b, join sep l = a ++ x ++ b.
Proof.
  induction l as [|y l IH]; intros Hx; [by apply not_elem_of_nil in Hx|].
  apply elem_of_cons in Hx as [->|Hx].
  - destruct l as [|z l].
    + exists [], []. cbn. by rewrite app_nil_r.
    + exists [], (sep ++ join sep (z :: l)). reflexivity.
  - destruct (IH Hx) as (a & b & E).
    destruct l as [|z l]; [by apply not_elem_of_nil in Hx|].
    exists (y ++ sep ++ a), b.
    change (join sep (y :: z :: l)) with (y ++ sep ++ join sep (z :: l)).
    rewrite E. by rewrite <- !app_assoc.
Qed.

(** ** The parser *)

Lemma p_bind_lift_ok {A B} (a : A) (k : A -> P B) :
  p_bind (p_lift (Ok a)) k = k a.
Proof. unfold p_bind, p_lift. destruct (k a). reflexivity. Qed.

Lemma p_bind_lift_raise {A B} (e : exn) (k : A -> P B) :
  p_bind (p_lift (Raise e)) k = ([], Raise e).
Proof. reflexivity. Qed.

Lemma getitem_lookup {A} (l : list A) (i : nat) (x : A) :
  l !! i = Some x -> getitem l i = Ok x.
Proof. unfold getitem. intros ->. reflexivity. Qed.

Lemma parse_loop_step_over (output : str) (lines : list str)
    (idx : nat) (rng : list nat) (line : str) :
  lines !! idx = Some line -> passed_over line ->
  parse_loop output lines (idx :: rng) = parse_loop output lines rng.
Proof.
  intros Hl Hp. cbn [parse_loop].
  rewrite (getitem_lookup _ _ _ Hl), p_bind_lift_ok.
  destruct (contains_char colon line) eqn:Hc; [|reflexivity].
  rewrite split_head, p_bind_lift_ok.
  destruct (Hp Hc) as [Ha Hf].
  rewrite !bool_decide_eq_false_2 by assumption. reflexivity.
Qed.

Lemma parse_loop_none (output : str) (lines : list str) (rng : list nat) :
  (forall i, i ∈ rng -> exists line, lines !! i = Some line /\ passed_over line) ->
  parse_loop output lines rng
  = ([], Ok (Str (output ++ py "\n" ++ no_action_warning))).
Proof.
  induction rng as [|idx rng IH]; intros Hall; [reflexivity|].
  destruct (Hall idx) as (line & Hl & Hp); [apply elem_of_cons; by left|].
  rewrite (parse_loop_step_over _ _ _ _ _ Hl Hp).
  apply IH. intros i Hi. apply Hall, elem_of_cons. by right.
Qed.

Lemma range_lookup {A} (l : list A) (i : nat) :
  i ∈ range 0 (length l) -> exists x, l !! i = Some x /\ x ∈ l.
Proof.
  unfold range. rewrite elem_of_seq. intros [_ Hi].
  destruct (lookup_lt_is_Some_2 l i) as [x Hx]; [lia|].
  exists x. split; [done|]. by eapply list_elem_of_lookup_2.
Qed.

(** C7: when no line of the output has a colon with [Action] or
    [Final Answer] (after trimming) before it, [parse_output] prints nothing
    and returns a plain string: the output, a newline and the warning. *)
Theorem parse_output_unparsed (output : str) :
  (forall line, line ∈ splitlines output -> passed_over line) ->
  parse_output output
  = ([], Ok (Str (output ++ py "\n" ++ no_action_warning))).
Proof.
  intros Hall. unfold parse_output. apply parse_loop_none.
  intros i Hi. destruct (range_lookup _ _ Hi) as (line & Hl & Hin).
  exists line. split; [done|]. by apply Hall.
Qed.

Lemma parse_output_unparsed_witness :
  (forall line, line ∈ splitlines (py "no colons here") -> passed_over line)
  /\ parse_output (py "no colons here")
     = ([], Ok (Str (py "no colons here" ++ py "\n" ++ no_action_warning))).
Proof.
  assert (Hall : forall line,
             line ∈ splitlines (py "no colons here") -> passed_over line).
  { intros line Hin Hc. exfalso.
    change (splitlines (py "no colons here")) with [py "no colons here"] in Hin.
    apply list_elem_of_singleton in Hin. subst line.
    vm_compute in Hc. discriminate. }
  split; [exact Hall|].
  exact (parse_output_unparsed (py "no colons here") Hall).
Defined.

(** *** What the parser returns on a marker line *)

Lemma split_second (sep : char) (s : str) :
  contains_char sep s = true ->
  getitem (split sep s) 1 = Ok (before sep (after sep s)).
Proof.
  intros Hc. rewrite split_before_after, Hc.
  rewrite (split_before_after sep (after sep s)). reflexivity.
Qed.

Lemma split_second_missing (sep : char) (s : str) :
  contains_char sep s = false ->
  getitem (split sep s) 1
  = Raise (mkExn IndexError (py "list index out of range")).
Proof. intros Hc. rewrite split_before_after, Hc. reflexivity. Qed.

Lemma collect_input_app (pre rest : list str) (acc : str) :
  collect_input (pre ++ rest) (seq (length pre) (length rest)) acc
  = Ok (input_of acc rest).
Proof.
  revert pre acc. induction rest as [|l rest IH]; intros pre acc; [reflexivity|].
  cbn [length seq collect_input input_of].
  rewrite (getitem_lookup _ _ l) by apply list_lookup_middle, eq_refl.
  cbn [res_bind].
  destruct (startswith (py "Observation:") l); [reflexivity|].
  specialize (IH (pre ++ [l]) (acc ++ py "\n" ++ l)).
  rewrite <- app_assoc, length_app, Nat.add_1_r in IH. exact IH.
Qed.

Lemma parse_loop_skip (output : str) (pre rest : list str) (rng : list nat) :
  Forall passed_over pre ->
  parse_loop output (pre ++ rest) (seq 0 (length pre) ++ rng)
  = parse_loop output (pre ++ rest) rng.
Proof.
  intros Hpre.
  assert (G : forall skipped todo,
             Forall passed_over todo -> pre = skipped ++ todo ->
             parse_loop output (pre ++ rest)
               (seq (length skipped) (length todo) ++ rng)
             = parse_loop output (pre ++ rest) rng).
  { intros skipped todo. revert skipped.
    induction todo as [|l todo IH]; intros skipped Hall E; [reflexivity|].
    apply Forall_cons in Hall as [Hl Hall].
    cbn [length seq app].
    rewrite (parse_loop_step_over _ _ _ _ l); [| |exact Hl].
    - specialize (IH (skipped ++ [l]) Hall).
      rewrite length_app, Nat.add_1_r, <- app_assoc in IH. by apply IH.
    - rewrite E, <- app_assoc. apply list_lookup_middle, eq_refl. }
  apply (G [] pre Hpre eq_refl).
Qed.

(** An [Action] line followed by a line with a colon: the record returned.
    The warning is printed when the token before that colon is not
    [Action Input]; the input starts with the text between the first and the
    second colon of the following line. *)
Lemma parse_output_action (output : str) (pre rest : list str) (line next : str) :
  splitlines output = pre ++ line :: next :: rest ->
  Forall passed_over pre ->
  contains_char colon line = true ->
  strip (before colon line) = py "Action" ->
  contains_char colon next = true ->
  parse_output output
  = (if bool_decide (strip (before colon next) <> py "Action Input")
     then [action_input_warning] else [],
     Ok (tool_record (strip (after colon line))
           (input_of (strip (before colon (after colon next))) rest)
           (join (py "\n") pre))).
Proof.
  intros Hlines Hpre Hc Ha Hn. unfold parse_output, range.
  rewrite Hlines, Nat.sub_0_r, length_app, seq_app, parse_loop_skip by done.
  cbn [length seq parse_loop Nat.add].
  rewrite (getitem_lookup _ _ line) by apply list_lookup_middle, eq_refl.
  rewrite p_bind_lift_ok, Hc, split_head, p_bind_lift_ok, Ha.
  rewrite bool_decide_eq_true_2 by reflexivity.
  unfold parse_action, range.
  assert (Hnext : (pre ++ line :: next :: rest) !! (length pre + 1)%nat = Some next).
  { change (pre ++ line :: next :: rest) with (pre ++ [line] ++ next :: rest).
    rewrite app_assoc. apply list_lookup_middle.
    rewrite length_app. reflexivity. }
  rewrite !(getitem_lookup _ _ next Hnext), !p_bind_lift_ok.
  rewrite split_head, p_bind_lift_ok, (split_second _ _ Hn).
  assert (Hrest : collect_input (pre ++ line :: next :: rest)
                    (seq (length pre + 2)
                         (length (pre ++ line :: next :: rest) - (length pre + 2)))
                    (strip (before colon (after colon next)))
                  = Ok (input_of (strip (before colon (after colon next))) rest)).
  { pose proof (collect_input_app (pre ++ [line; next]) rest
                  (strip (before colon (after colon next)))) as E.
    rewrite <- app_assoc, length_app in E. cbn [app length] in E.
    rewrite length_app. cbn [length].
    replace (length pre + S (S (length rest)) - (length pre + 2))%nat
      with (length rest) by lia.
    exact E. }
  change (py ":") with [colon]. rewrite join_split_tail, take_app_length.
  destruct (bool_decide (strip (before colon next) <> py "Action Input"));
    unfold p_print, p_ret; cbn [p_bind];
    rewrite p_bind_lift_ok, Hrest, p_bind_lift_ok; reflexivity.
Qed.

(** A [Final Answer] line: the record returned.  The answer is the text
    between the first and the second colon of the line. *)
Lemma parse_output_answer (output : str) (pre rest : list str) (line : str) :
  splitlines output = pre ++ line :: rest ->
  Forall passed_over pre ->
  contains_char colon line = true ->
  strip (before colon line) = py "Final Answer" ->
  parse_output output
  = ([], Ok (answer_record (strip (before colon (after colon line)))
                            (join (py "\n") pre))).
Proof.
  intros Hlines Hpre Hc Ha. unfold parse_output, range.
  rewrite Hlines, Nat.sub_0_r, length_app, seq_app, parse_loop_skip by done.
  cbn [length seq parse_loop Nat.add].
  rewrite (getitem_lookup _ _ line) by apply list_lookup_middle, eq_refl.
  rewrite p_bind_lift_ok, Hc, split_head, p_bind_lift_ok, Ha.
  rewrite bool_decide_eq_false_2 by (vm_compute; discriminate).
  rewrite bool_decide_eq_true_2 by reflexivity.
  unfold parse_answer.
  rewrite (split_second _ _ Hc), p_bind_lift_ok, take_app_length.
  reflexivity.
Qed.

(** An [Action] line that is the last line: reading the following line
    raises. *)
Lemma parse_output_action_last (output : str) (pre : list str) (line : str) :
  splitlines output = pre ++ [line] ->
  Forall passed_over pre ->
  contains_char colon line = true ->
  strip (before colon line) = py "Action" ->
  parse_output output
  = ([], Raise (mkExn IndexError (py "list index out of range"))).
Proof.
  intros Hlines Hpre Hc Ha. unfold parse_output, range.
  rewrite Hlines, Nat.sub_0_r, length_app, seq_app, parse_loop_skip by done.
  cbn [length seq parse_loop Nat.add].
  rewrite (getitem_lookup _ _ line) by apply list_lookup_middle, eq_refl.
  rewrite p_bind_lift_ok, Hc, split_head, p_bind_lift_ok, Ha.
  rewrite bool_decide_eq_true_2 by reflexivity.
  unfold parse_action, getitem at 1.
  rewrite lookup_ge_None_2; [reflexivity|].
  rewrite length_app. cbn [length]. lia.
Qed.

(** An [Action] line followed by a line without a colon: after the warning
    (the token before the colon is then the whole line), reading the second
    piece raises. *)
Lemma parse_output_action_no_colon (output : str) (pre rest : list str)
    (line next : str) :
  splitlines output = pre ++ line :: next :: rest ->
  Forall passed_over pre ->
  contains_char colon line = true ->
  strip (before colon line) = py "Action" ->
  contains_char colon next = false ->
  parse_output output
  = (if bool_decide (strip (before colon next) <> py "Action Input")
     then [action_input_warning] else [],
     Raise (mkExn IndexError (py "list index out of range"))).
Proof.
  intros Hlines Hpre Hc Ha Hn. unfold parse_output, range.
  rewrite Hlines, Nat.sub_0_r, length_app, seq_app, parse_loop_skip by done.
  cbn [length seq parse_loop Nat.add].
  rewrite (getitem_lookup _ _ line) by apply list_lookup_middle, eq_refl.
  rewrite p_bind_lift_ok, Hc, split_head, p_bind_lift_ok, Ha.
  rewrite bool_decide_eq_true_2 by reflexivity.
  unfold parse_action.
  assert (Hnext : (pre ++ line :: next :: rest) !! (length pre + 1)%nat = Some next).
  { change (pre ++ line :: next :: rest) with (pre ++ [line] ++ next :: rest).
    rewrite app_assoc. apply list_lookup_middle.
    rewrite length_app. reflexivity. }
  rewrite !(getitem_lookup _ _ next Hnext), !p_bind_lift_ok.
  rewrite split_head, p_bind_lift_ok, (split_second_missing _ _ Hn).
  destruct (bool_decide (strip (before colon next) <> py "Action Input"));
    reflexivity.
Qed.

(** C1: the tool input of a following line with a second colon, and an
    [Action] line that is the last line.  Of [Action Input: http://example.com]
    the parser keeps [http], the text up to the second colon, where the tool
    name is taken up to the end of its line; and with no line after the
    [Action] line it raises [IndexError] where a tool-call record is
    expected. *)
Theorem parse_output_action_input_truncated :
  parse_output (py "Action: Fetch\nAction Input: http://example.com")
  = ([], Ok (tool_record (py "Fetch") (py "http") []))
  /\ strip (after colon (py "Action Input: http://example.com"))
     = py "http://example.com"
  /\ parse_output (py "Thought: I should search\nAction: Search")
     = ([], Raise (mkExn IndexError (py "list index out of range"))).
Proof. repeat split; vm_compute; reflexivity. Qed.

(** C2: a [Final Answer] line with a colon in the answer.  The answer kept
    is the text up to the second colon, not everything after the first. *)
Theorem parse_output_answer_truncated :
  parse_output (py "Thought: done\nFinal Answer: 12:30")
  = ([], Ok (answer_record (py "12") (py "Thought: done")))
  /\ strip (after colon (py "Final Answer: 12:30")) = py "12:30".
Proof. split; vm_compute; reflexivity. Qed.

(** C5: an [Action] line followed by a line without a colon.  The warning is
    printed, and then reading the second piece of that line raises
    [IndexError]. *)
Theorem parse_output_action_input_missing :
  parse_output (py "Action: Search\ncapital of France")
  = ([action_input_warning],
     Raise (mkExn IndexError (py "list index out of range"))).
Proof. vm_compute; reflexivity. Qed.

(** ** Properties of the agent *)

Section Properties.
Context `{Env}.

(** *** Formatting *)

Lemma emit_nil (r : option (res str)) : emit [] r = r.
Proof. destruct r as [[x|e]|]; reflexivity. Qed.

Lemma emit_emit (pre1 pre2 : str) (r : option (res str)) :
  emit pre1 (emit pre2 r) = emit (pre1 ++ pre2) r.
Proof. destruct r as [[x|e]|]; cbn; [by rewrite app_assoc|done|done]. Qed.

Lemma emit_ok (pre x : str) (r : option (res str)) :
  emit pre r = Some (Ok x) -> exists y, r = Some (Ok y) /\ x = pre ++ y.
Proof.
  destruct r as [[y|e]|]; cbn; intros E; try discriminate.
  injection E as <-. by exists y.
Qed.

Section Format.
Variables (question : str) (tool_names : list str).

(** A template that formats without an error can be formatted piecewise. *)
Lemma format_from_app_le (b : str) (n : nat) :
  forall a, (length a <= n)%nat -> forall m a',
    format_from question tool_names m a = Some (Ok a') ->
    format_from question tool_names m (a ++ b)
    = emit a' (format_from question tool_names InText b).
Proof.
  induction n as [|n IH]; intros a Hlen m a' Hf.
  - destruct a as [|c a]; [|cbn in Hlen; lia].
    destruct m; cbn [format_from] in Hf; [|discriminate].
    injection Hf as <-. by rewrite emit_nil.
  - destruct a as [|c a].
    { destruct m; cbn [format_from] in Hf; [|discriminate].
      injection Hf as <-. by rewrite emit_nil. }
    cbn [length] in Hlen.
    destruct m as [|nm]; cbn [format_from app] in *.
    + destruct (c =? lbrace).
      { destruct a as [|d a]; [discriminate|]. cbn [app].
        destruct (d =? lbrace).
        - apply emit_ok in Hf as (y & Hy & ->).
          rewrite (IH a) with (a' := y); [|cbn [length] in Hlen; lia|done].
          by rewrite emit_emit.
        - apply (IH (d :: a)); [lia|done]. }
      destruct (c =? rbrace).
      { destruct a as [|d a]; [discriminate|]. cbn [app].
        destruct (d =? rbrace); [|discriminate].
        apply emit_ok in Hf as (y & Hy & ->).
        rewrite (IH a) with (a' := y); [|cbn [length] in Hlen; lia|done].
        by rewrite emit_emit. }
      apply emit_ok in Hf as (y & Hy & ->).
      rewrite (IH a) with (a' := y); [|lia|done].
      by rewrite emit_emit.
    + destruct (c =? rbrace).
      { destruct (field_value question tool_names nm) as [[v|e]|];
          [|discriminate|discriminate].
        apply emit_ok in Hf as (y & Hy & ->).
        rewrite (IH a) with (a' := y); [|lia|done].
        by rewrite emit_emit. }
      destruct (c =? lbrace); [discriminate|].
      destruct ((c =? 91) || (c =? colon) || (c =? 33)); [discriminate|].
      apply IH; [lia|done].
Qed.

Lemma format_app (a a' b : str) :
  format a question tool_names = Some (Ok a') ->
  format (a ++ b) question tool_names = emit a' (format b question tool_names).
Proof. intros Hf. by apply (format_from_app_le b (length a)). Qed.

Lemma format_brace_free (a : str) :
  brace_free a = true -> format a question tool_names = Some (Ok a).
Proof.
  unfold format. induction a as [|c a IH]; [reflexivity|].
  cbn [brace_free forallb format_from]. intros Hb.
  apply andb_true_iff in Hb as [Hc Ha].
  apply negb_true_iff, orb_false_iff in Hc as [-> ->].
  rewrite (IH Ha). reflexivity.
Qed.

Lemma format_question : format (py "{question}") question tool_names = Some (Ok question).
Proof.
  vm_compute. change (Some (Ok (question ++ [])) = Some (Ok question)).
  by rewrite app_nil_r.
Qed.

End Format.

Lemma brace_free_app (a b : str) :
  brace_free (a ++ b) = brace_free a && brace_free b.
Proof. apply forallb_app. Qed.

Lemma brace_free_join (sep : str) (l : list str) :
  brace_free sep = true -> forallb brace_free l = true ->
  brace_free (join sep l) = true.
Proof.
  intros Hsep. induction l as [|x l IH]; [reflexivity|].
  cbn [forallb]. intros Hl. apply andb_true_iff in Hl as [Hx Hl].
  destruct l as [|y l]; [exact Hx|].
  change (join sep (x :: y :: l)) with (x ++ sep ++ join sep (y :: l)).
  rewrite !brace_free_app, Hx, Hsep, (IH Hl). reflexivity.
Qed.

(** *** [create_prompt] *)

(** The prompt depends on the agent only through the names and the
    descriptions of its tools. *)
Lemma create_prompt_ext (a a' : Agent) (question prefix suffix instructions : str) :
  map name (_tools a') = map name (_tools a) ->
  map description (_tools a') = map description (_tools a) ->
  create_prompt a' question prefix suffix instructions
  = create_prompt a question prefix suffix instructions.
Proof.
  intros Hn Hd. unfold create_prompt, tool_descriptions, tool_names.
  rewrite Hn.
  assert (E : map tool_entry (_tools a') = map tool_entry (_tools a)).
  { destruct a as [? ts ?], a' as [? ts' ?]; cbn [_tools] in *.
    revert ts' Hn Hd. induction ts as [|t ts IH]; intros [|t' ts'] Hn Hd;
      try discriminate; [reflexivity|].
    cbn [map] in *. injection Hn as Hn1 Hn. injection Hd as Hd1 Hd.
    f_equal; [|by apply IH]. unfold tool_entry. by rewrite Hn1, Hd1. }
  by rewrite E.
Qed.

Lemma tool_descriptions_brace_free (a : Agent) :
  forallb (fun tool => brace_free (name tool) && brace_free (description tool))
          (_tools a) = true ->
  brace_free (tool_descriptions a) = true.
Proof.
  intros Hall. unfold tool_descriptions.
  apply brace_free_join; [reflexivity|].
  induction (_tools a) as [|t ts IH]; [reflexivity|].
  cbn [forallb map] in *. apply andb_true_iff in Hall as [Ht Hts].
  apply andb_true_iff in Ht as [Hn Hd].
  unfold tool_entry at 1. rewrite !brace_free_app, Hn, Hd, (IH Hts).
  reflexivity.
Qed.

(** The prompt, part by part. *)
Lemma create_prompt_formatted (a : Agent)
    (question prefix instructions instructions' s1 s2 : str) :
  brace_free prefix = true ->
  forallb (fun tool => brace_free (name tool) && brace_free (description tool))
          (_tools a) = true ->
  format instructions question (tool_names a) = Some (Ok instructions') ->
  brace_free s1 = true ->
  brace_free s2 = true ->
  create_prompt a question prefix (s1 ++ py "{question}" ++ s2) instructions
  = Some (Ok (prefix ++ py "\n\n"
                ++ join (py "\n\n") (map tool_entry (_tools a)) ++ py "\n\n"
                ++ instructions' ++ py "\n\n" ++ s1 ++ question ++ s2)).
Proof.
  intros Hp Ht Hi H1 H2. unfold create_prompt.
  pose proof (tool_descriptions_brace_free a Ht) as Hd.
  set (tn := tool_names a) in *.
  set (A := prefix ++ py "\n\n" ++ tool_descriptions a ++ py "\n\n").
  assert (HA : brace_free A = true).
  { unfold A. rewrite !brace_free_app, Hp, Hd. reflexivity. }
  assert (HB : brace_free (py "\n\n" ++ s1) = true).
  { rewrite brace_free_app, H1. reflexivity. }
  replace (prefix ++ py "\n\n" ++ tool_descriptions a ++ py "\n\n"
             ++ instructions ++ py "\n\n" ++ s1 ++ py "{question}" ++ s2)
    with (A ++ instructions ++ (py "\n\n" ++ s1) ++ py "{question}" ++ s2)
    by (unfold A; by rewrite <- !app_assoc).
  rewrite (format_app _ _ A A) by apply format_brace_free, HA.
  rewrite (format_app _ _ instructions instructions') by exact Hi.
  rewrite (format_app _ _ (py "\n\n" ++ s1) (py "\n\n" ++ s1))
    by apply format_brace_free, HB.
  rewrite (format_app _ _ (py "{question}") question)
    by apply format_question.
  rewrite (format_brace_free _ _ s2 H2).
  unfold A, tool_descriptions. cbn [emit option_map res_map res_bind].
  by rewrite <- !app_assoc.
Qed.

(** C8, as amended: with a brace-free prefix, brace-free tool names and
    descriptions, instructions that format on their own, and a suffix
    [s1 + '{question}' + s2] with brace-free [s1] and [s2], [create_prompt]
    returns the prefix, the entries [name: description] in registration order
    joined by blank lines, the formatted instructions and the suffix with the
    question in place of the field, each part separated by a blank line; the
    result contains the question and every tool's name and description, and
    is the same for any agent with the same tool names and descriptions. *)
Theorem create_prompt_contents (a : Agent)
    (question prefix instructions instructions' s1 s2 : str) :
  brace_free prefix = true ->
  forallb (fun tool => brace_free (name tool) && brace_free (description tool))
          (_tools a) = true ->
  format instructions question (tool_names a) = Some (Ok instructions') ->
  brace_free s1 = true ->
  brace_free s2 = true ->
  exists prompt,
    prompt = prefix ++ py "\n\n"
               ++ join (py "\n\n") (map tool_entry (_tools a)) ++ py "\n\n"
               ++ instructions' ++ py "\n\n" ++ s1 ++ question ++ s2
    /\ create_prompt a question prefix (s1 ++ py "{question}" ++ s2) instructions
       = Some (Ok prompt)
    /\ contains question prompt = true
    /\ (forall tool, tool ∈ _tools a ->
          contains (name tool) prompt = true
          /\ contains (description tool) prompt = true)
    /\ (forall a' : Agent,
          map name (_tools a') = map name (_tools a) ->
          map description (_tools a') = map description (_tools a) ->
          create_prompt a' question prefix (s1 ++ py "{question}" ++ s2)
                        instructions
          = Some (Ok prompt)).
Proof.
  intros Hp Ht Hi H1 H2. eexists. split; [reflexivity|].
  pose proof (create_prompt_formatted a question prefix instructions
                instructions' s1 s2 Hp Ht Hi H1 H2) as Hc.
  split; [exact Hc|]. split; [|split].
  - match goal with |- contains _ ?p = true =>
      replace p with
        ((prefix ++ py "\n\n" ++ join (py "\n\n") (map tool_entry (_tools a))
            ++ py "\n\n" ++ instructions' ++ py "\n\n" ++ s1) ++ question ++ s2)
        by (by rewrite <- !app_assoc)
    end.
    apply contains_app.
  - intros tool Hin.
    destruct (join_elem (py "\n\n") (tool_entry tool) (map tool_entry (_tools a)))
      as (x & y & E); [by apply list_elem_of_fmap_2|].
    rewrite E. unfold tool_entry.
    set (R := py "\n\n" ++ instructions' ++ py "\n\n" ++ s1 ++ question ++ s2).
    split.
    + match goal with |- contains _ ?p = true =>
        replace p with
          ((prefix ++ py "\n\n" ++ x) ++ name tool
             ++ (py ": " ++ description tool ++ y ++ R))
          by (by rewrite <- !app_assoc)
      end.
      apply contains_app.
    + match goal with |- contains _ ?p = true =>
        replace p with
          ((prefix ++ py "\n\n" ++ x ++ name tool ++ py ": ")
             ++ description tool ++ (y ++ R))
          by (by rewrite <- !app_assoc)
      end.
      apply contains_app.
  - intros a' Hn Hd. rewrite (create_prompt_ext a a') by done. exact Hc.
Qed.

(** *** The default templates *)

Lemma field_value_tool_names (question : str) (tool_names : list str) :
  field_value question tool_names (py "tool_names")
  = Some (Ok (str_of_list tool_names)).
Proof. reflexivity. Qed.

Lemma format_tool_names (question : str) (tool_names : list str) :
  format (py "{tool_names}") question tool_names
  = Some (Ok (str_of_list tool_names)).
Proof.
  unfold format.
  change (py "{tool_names}") with (lbrace :: py "tool_names" ++ [rbrace]).
  assert (G : forall seen todo,
             forallb (fun c => negb ((c =? rbrace) || (c =? lbrace) || (c =? 91)
                                     || (c =? colon) || (c =? 33))) todo = true ->
             format_from question tool_names (InField seen) (todo ++ [rbrace])
             = match field_value question tool_names (seen ++ todo) with
               | Some (Ok v) => Some (Ok (v ++ []))
               | other => other
               end).
  { intros seen todo. revert seen.
    induction todo as [|c todo IH]; intros seen Hall.
    - cbn [app format_from]. rewrite N.eqb_refl, app_nil_r. reflexivity.
    - cbn [forallb] in Hall. apply andb_true_iff in Hall as [Hc Hall].
      apply negb_true_iff in Hc. cbn [app format_from].
      destruct (c =? rbrace); [discriminate|].
      destruct (c =? lbrace); [discriminate|].
      cbn [orb] in Hc. rewrite Hc.
      rewrite IH by exact Hall. rewrite <- app_assoc. reflexivity. }
  change (format_from question tool_names InText
            (lbrace :: py "tool_names" ++ [rbrace]))
    with (format_from question tool_names (InField [])
            (py "tool_names" ++ [rbrace])).
  rewrite G by reflexivity.
  cbn [app]. rewrite field_value_tool_names, app_nil_r. reflexivity.
Qed.

(** The default instructions have one field, [{tool_names}], and format for
    every question and every list of tool names. *)
Lemma format_INSTRUCTIONS (question : str) (tool_names : list str) :
  exists head tail,
    INSTRUCTIONS = head ++ py "{tool_names}" ++ tail
    /\ format INSTRUCTIONS question tool_names
       = Some (Ok (head ++ str_of_list tool_names ++ tail)).
Proof.
  exists (py "Use the following format:\n\nQuestion: the input question you must answer\nThought: you should always think about what to do next\nAction: the action to take, should be one of "),
    (py "\nAction Input: The input to the action\nObservation: the result of the action\n... (this Thought/Action/Action Input/Observation can repeat N times)\nThought: I now know the final answer\nFinal Answer: the final answer to the original input question").
  assert (E : INSTRUCTIONS = py "Use the following format:\n\nQuestion: the input question you must answer\nThought: you should always think about what to do next\nAction: the action to take, should be one of " ++ py "{tool_names}" ++ py "\nAction Input: The input to the action\nObservation: the result of the action\n... (this Thought/Action/Action Input/Observation can repeat N times)\nThought: I now know the final answer\nFinal Answer: the final answer to the original input question")
    by (vm_compute; reflexivity).
  split; [exact E|]. rewrite E.
  erewrite format_app by (apply format_brace_free; vm_compute; reflexivity).
  erewrite format_app by apply format_tool_names.
  rewrite format_brace_free by (vm_compute; reflexivity).
  reflexivity.
Qed.

(** With the default templates and tools whose names and descriptions have
    no braces, [create_prompt] returns a prompt with the question in it: for
    such an agent [run] neither raises at its first line nor leaves the
    model of [str.format]. *)
Lemma create_prompt_default (a : Agent) (question : str) :
  forallb (fun tool => brace_free (name tool) && brace_free (description tool))
          (_tools a) = true ->
  exists prompt,
    create_prompt a question PREFIX SUFFIX INSTRUCTIONS = Some (Ok prompt)
    /\ contains question prompt = true.
Proof.
  intros Ht.
  destruct (format_INSTRUCTIONS question (tool_names a)) as (hd & tl & _ & Ei).
  assert (Es : SUFFIX = py "Begin\n\nQuestion: " ++ py "{question}" ++ py "\n")
    by (vm_compute; reflexivity).
  rewrite Es.
  pose proof (create_prompt_formatted a question PREFIX INSTRUCTIONS _
                (py "Begin\n\nQuestion: ") (py "\n") eq_refl Ht Ei eq_refl eq_refl)
    as Hc.
  eexists. split; [exact Hc|].
  match goal with |- contains _ ?p = true =>
    replace p with
      ((PREFIX ++ py "\n\n" ++ join (py "\n\n") (map tool_entry (_tools a))
          ++ py "\n\n" ++ (hd ++ str_of_list (tool_names a) ++ tl)
          ++ py "\n\n" ++ py "Begin\n\nQuestion: ") ++ question ++ py "\n")
      by (by rewrite <- !app_assoc)
  end.
  apply contains_app.
Qed.

(** *** Construction *)

Lemma tools_value_ok (tools : pyobj) :
  tool_or_tools tools = true -> tools_value tools = Ok (tools_of tools).
Proof.
  destruct tools as [| | | | |l]; cbn [tool_or_tools]; intros Ht;
    try discriminate Ht; [reflexivity|].
  cbn [tools_value tools_of]. rewrite Ht. reflexivity.
Qed.

Lemma tools_value_raise (tools : pyobj) :
  tool_or_tools tools = false ->
  exists msg, tools_value tools = Raise (mkExn TypeError msg).
Proof.
  destruct tools as [| | | | |l]; cbn [tool_or_tools tools_value]; intros Ht;
    try discriminate Ht; try (eexists; reflexivity).
  rewrite Ht. eexists; reflexivity.
Qed.

Lemma verbose_value_ok (verbose : pyobj) :
  isinstance_bool verbose = true -> verbose_value verbose = Ok (bool_of verbose).
Proof. destruct verbose; cbn [isinstance_bool]; intros Hv; try discriminate Hv. reflexivity. Qed.

Lemma verbose_value_raise (verbose : pyobj) :
  isinstance_bool verbose = false ->
  exists msg, verbose_value verbose = Raise (mkExn TypeError msg).
Proof.
  destruct verbose; cbn [isinstance_bool verbose_value]; intros Hv;
    try discriminate Hv; eexists; reflexivity.
Qed.

(** C9: construction raises [TypeError] when [verbose] is not a bool, and
    when [tools] is neither a tool nor a list of tools; with a tool or a list
    of tools and a bool it succeeds, and the agent holds the model, the
    tools in the order given and the flag. *)
Theorem Agent_init_checks (llm : str -> World -> res str * World)
    (tools verbose : pyobj) :
  (isinstance_bool verbose = false ->
   exists msg, Agent_init llm tools verbose = Raise (mkExn TypeError msg))
  /\ (tool_or_tools tools = false ->
      exists msg, Agent_init llm tools verbose = Raise (mkExn TypeError msg))
  /\ (tool_or_tools tools = true -> isinstance_bool verbose = true ->
      Agent_init llm tools verbose
      = Ok (mkAgent llm (tools_of tools) (bool_of verbose))).
Proof.
  unfold Agent_init, BaseModel_init. cbn [res_bind].
  split; [|split].
  - intros Hv. destruct (verbose_value_raise _ Hv) as [msg Ev].
    destruct (tool_or_tools tools) eqn:Ht.
    + rewrite (tools_value_ok _ Ht), Ev. cbn [res_bind]. by exists msg.
    + destruct (tools_value_raise _ Ht) as [msg' Et].
      rewrite Et. cbn [res_bind]. by exists msg'.
  - intros Ht. destruct (tools_value_raise _ Ht) as [msg Et].
    rewrite Et. cbn [res_bind]. by exists msg.
  - intros Ht Hv.
    rewrite (tools_value_ok _ Ht), (verbose_value_ok _ Hv). reflexivity.
Qed.

(** *** [run_tool] *)

Lemma run_tool_unregistered (st : state) (tool_name tool_input : str) :
  tool_dict (self st) !! tool_name = None ->
  run_tool tool_name tool_input st
  = (Ok (py "No tool with the name " ++ tool_name ++ py " found"), st).
Proof.
  unfold run_tool, m_bind, m_self. cbv beta iota. intros ->. reflexivity.
Qed.

Lemma run_tool_caught (st : state) (tool_name tool_input : str)
    (the_tool : Tool) (e : exn) (w : World) :
  tool_dict (self st) !! tool_name = Some the_tool ->
  func the_tool tool_input (world st) = (Raise e, w) ->
  is_Exception (exn_cls e) = true ->
  run_tool tool_name tool_input st
  = (Ok (py "Tool encountered an error: " ++ exn_str e),
     mkState (self st) w (trace st ++ [CallTool tool_name tool_input])).
Proof.
  unfold run_tool, m_bind, m_self. cbv beta iota. intros -> Hf He.
  unfold m_try, m_call. rewrite Hf, He. reflexivity.
Qed.

Lemma run_tool_returns (st : state) (tool_name tool_input : str)
    (the_tool : Tool) (out : str) (w : World) :
  tool_dict (self st) !! tool_name = Some the_tool ->
  func the_tool tool_input (world st) = (Ok out, w) ->
  run_tool tool_name tool_input st
  = (Ok out, mkState (self st) w (trace st ++ [CallTool tool_name tool_input])).
Proof.
  unfold run_tool, m_bind, m_self. cbv beta iota. intros -> Hf.
  unfold m_try, m_call. rewrite Hf. reflexivity.
Qed.


(** *** The monad of [run] *)

Lemma m_bind_ok {A B} (m : M A) (k : A -> M B) (st st' : state) (a : A) :
  m st = (Ok a, st') -> m_bind m k st = k a st'.
Proof. unfold m_bind. intros ->. reflexivity. Qed.

Lemma m_bind_raise {A B} (m : M A) (k : A -> M B) (st st' : state) (e : exn) :
  m st = (Raise e, st') -> m_bind m k st = (Raise e, st').
Proof. unfold m_bind. intros ->. reflexivity. Qed.

Lemma m_prints_eq (ss : list str) (st : state) :
  m_prints ss st
  = (Ok tt, mkState (self st) (world st) (trace st ++ map Print ss)).
Proof.
  revert st. induction ss as [|s ss IH]; intros st.
  - cbn [m_prints map]. rewrite app_nil_r. by destruct st.
  - cbn [m_prints map]. unfold m_bind, m_print. rewrite IH.
    unfold log. cbn [self world trace]. by rewrite <- app_assoc.
Qed.

Lemma when_verbose_eq (ss : list str) (st : state) :
  when_verbose ss st = (Ok tt, verbose_log ss st).
Proof.
  unfold when_verbose, verbose_log, m_bind, m_self.
  destruct (_verbose (self st)); [apply m_prints_eq|reflexivity].
Qed.

Lemma verbose_log_self (ss : list str) (st : state) :
  self (verbose_log ss st) = self st.
Proof. unfold verbose_log. by destruct (_verbose (self st)). Qed.

Lemma verbose_log_world (ss : list str) (st : state) :
  world (verbose_log ss st) = world st.
Proof. unfold verbose_log. by destruct (_verbose (self st)). Qed.

Lemma count_events_app (f : event -> bool) (tr1 tr2 : list event) :
  count_events f (tr1 ++ tr2) = (count_events f tr1 + count_events f tr2)%nat.
Proof.
  induction tr1 as [|e tr1 IH]; [reflexivity|].
  cbn [app count_events]. rewrite IH. lia.
Qed.

Lemma count_events_prints (f : event -> bool) (ss : list str) :
  (forall s, f (Print s) = false) -> count_events f (map Print ss) = 0%nat.
Proof.
  intros Hf. induction ss as [|s ss IH]; [reflexivity|].
  cbn [map count_events]. by rewrite Hf, IH.
Qed.

Lemma verbose_log_count (f : event -> bool) (ss : list str) (st : state) :
  (forall s, f (Print s) = false) ->
  count_events f (trace (verbose_log ss st)) = count_events f (trace st).
Proof.
  intros Hf. unfold verbose_log. destruct (_verbose (self st)); [|reflexivity].
  cbn [trace]. rewrite count_events_app, count_events_prints by done. lia.
Qed.

(** *** Reading the records *)

Lemma subscript_tool_record (tool input thought : str) :
  subscript (tool_record tool input thought) (py "Action") = Ok (py "tool")
  /\ subscript (tool_record tool input thought) (py "Tool") = Ok tool
  /\ subscript (tool_record tool input thought) (py "Input") = Ok input
  /\ subscript (tool_record tool input thought) (py "Thought") = Ok thought.
Proof. repeat split; vm_compute; reflexivity. Qed.

Lemma subscript_answer_record (answer thought : str) :
  subscript (answer_record answer thought) (py "Action") = Ok (py "answer")
  /\ subscript (answer_record answer thought) (py "Answer") = Ok answer
  /\ subscript (answer_record answer thought) (py "Thought") = Ok thought.
Proof. repeat split; vm_compute; reflexivity. Qed.

Lemma subscript_str (s key : str) :
  subscript (Str s) key
  = Raise (mkExn TypeError (py "string indices must be integers, not 'str'")).
Proof. reflexivity. Qed.

(** *** One pass of the loop *)

Lemma after_parse_self prompt response warn action w st :
  self (after_parse prompt response warn action w st) = self st.
Proof. unfold after_parse. by rewrite !verbose_log_self; cbn; rewrite ?verbose_log_self. Qed.

Lemma after_parse_world prompt response warn action w st :
  world (after_parse prompt response warn action w st) = w.
Proof. unfold after_parse. by rewrite !verbose_log_world; cbn; rewrite ?verbose_log_world. Qed.

Lemma after_parse_count (f : event -> bool) prompt response warn action w st :
  (forall s, f (Print s) = false) ->
  count_events f (trace (after_parse prompt response warn action w st))
  = (count_events f (trace st) + (if f (CallLLM prompt) then 1 else 0))%nat.
Proof.
  intros Hf. unfold after_parse.
  rewrite verbose_log_count by done. cbn [trace].
  rewrite count_events_app, count_events_prints, verbose_log_count by done.
  cbn [trace]. rewrite count_events_app. cbn [count_events]. lia.
Qed.

(** The first half of the body: the model answers, the parser returns. *)
Lemma run_body_parsed (st : state) (prompt response : str) (w : World)
    (warn : list str) (action : pyval) :
  _llm (self st) prompt (world st) = (Ok response, w) ->
  parse_output response = (warn, Ok action) ->
  run_body prompt st
  = dispatch prompt action (after_parse prompt response warn action w st).
Proof.
  intros Hllm Hparse. unfold run_body.
  erewrite m_bind_ok by reflexivity.
  erewrite m_bind_ok by (unfold m_call; rewrite Hllm; reflexivity).
  erewrite m_bind_ok by apply when_verbose_eq.
  erewrite m_bind_ok by (unfold m_parse; rewrite Hparse; reflexivity).
  erewrite m_bind_ok by apply when_verbose_eq.
  reflexivity.
Qed.

(** A parser that raises ends the pass, and the loop. *)
Lemma run_body_parse_raise (st : state) (prompt response : str) (w : World)
    (warn : list str) (e : exn) :
  _llm (self st) prompt (world st) = (Ok response, w) ->
  parse_output response = (warn, Raise e) ->
  exists st', run_body prompt st = (Raise e, st').
Proof.
  intros Hllm Hparse. unfold run_body.
  erewrite m_bind_ok by reflexivity.
  erewrite m_bind_ok by (unfold m_call; rewrite Hllm; reflexivity).
  erewrite m_bind_ok by apply when_verbose_eq.
  erewrite m_bind_raise by (unfold m_parse; rewrite Hparse; reflexivity).
  eauto.
Qed.

Lemma dispatch_tool (st : state) (prompt tool input thought : str) :
  dispatch prompt (tool_record tool input thought) st
  = match run_tool tool input st with
    | (Ok out, st') =>
        let prompt' := tool_prompt prompt thought tool input out in
        (Ok (Continue prompt'),
         verbose_log [py "NEW PROMPT:"; py "\n"; prompt'; py "\n\n"] st')
    | (Raise e, st') => (Raise e, st')
    end.
Proof.
  destruct (subscript_tool_record tool input thought) as (Ea & Et & Ei & Eth).
  unfold dispatch.
  erewrite m_bind_ok by (unfold m_lift; rewrite Ea; reflexivity).
  rewrite bool_decide_eq_true_2 by reflexivity.
  erewrite m_bind_ok by (unfold m_lift; rewrite Et; reflexivity).
  erewrite m_bind_ok by (unfold m_lift; rewrite Ei; reflexivity).
  destruct (run_tool tool input st) as [[out|e] st'] eqn:Er.
  - erewrite m_bind_ok by exact Er.
    erewrite m_bind_ok by (unfold m_lift; rewrite Eth; reflexivity).
    erewrite m_bind_ok by (unfold m_lift; rewrite Et; reflexivity).
    erewrite m_bind_ok by (unfold m_lift; rewrite Ei; reflexivity).
    erewrite m_bind_ok by apply when_verbose_eq.
    reflexivity.
  - erewrite m_bind_raise by exact Er. reflexivity.
Qed.

Lemma dispatch_answer (st : state) (prompt answer thought : str) :
  dispatch prompt (answer_record answer thought) st
  = let prompt' := answer_prompt prompt thought answer in
    (Ok (Return (mkResult answer prompt')),
     verbose_log [py "FINAL TEXT:"; py "\n"; prompt'] st).
Proof.
  destruct (subscript_answer_record answer thought) as (Ea & Ean & Eth).
  unfold dispatch.
  erewrite m_bind_ok by (unfold m_lift; rewrite Ea; reflexivity).
  rewrite bool_decide_eq_false_2 by (vm_compute; discriminate).
  erewrite m_bind_ok by (unfold m_lift; rewrite Ea; reflexivity).
  rewrite bool_decide_eq_true_2 by reflexivity.
  erewrite m_bind_ok by (unfold m_lift; rewrite Eth; reflexivity).
  erewrite m_bind_ok by (unfold m_lift; rewrite Ean; reflexivity).
  erewrite m_bind_ok by apply when_verbose_eq.
  erewrite m_bind_ok by (unfold m_lift; rewrite Ean; reflexivity).
  reflexivity.
Qed.

Lemma dispatch_str (st : state) (prompt s : str) :
  dispatch prompt (Str s) st
  = (Raise (mkExn TypeError (py "string indices must be integers, not 'str'")),
     st).
Proof. unfold dispatch. erewrite m_bind_raise by reflexivity. reflexivity. Qed.

(** A pass in which the model asks for a registered tool that returns. *)
Lemma pass_tool (st : state) (prompt response : str) (w1 w2 : World)
    (warn : list str) (tool input thought out : str) (the_tool : Tool) :
  _llm (self st) prompt (world st) = (Ok response, w1) ->
  parse_output response = (warn, Ok (tool_record tool input thought)) ->
  tool_dict (self st) !! tool = Some the_tool ->
  func the_tool input w1 = (Ok out, w2) ->
  exists st',
    run_body prompt st
    = (Ok (Continue (tool_prompt prompt thought tool input out)), st')
    /\ self st' = self st /\ world st' = w2
    /\ count_events is_llm_call (trace st')
       = S (count_events is_llm_call (trace st))
    /\ count_events is_tool_call (trace st')
       = S (count_events is_tool_call (trace st)).
Proof.
  intros Hllm Hparse Hreg Hfunc.
  rewrite (run_body_parsed _ _ _ _ _ _ Hllm Hparse), dispatch_tool.
  set (st1 := after_parse prompt response warn (tool_record tool input thought) w1 st).
  rewrite (run_tool_returns st1 tool input the_tool out w2).
  - eexists. split; [reflexivity|].
    rewrite verbose_log_self, verbose_log_world, !verbose_log_count by done.
    cbn [self world trace]. rewrite !count_events_app.
    unfold st1. rewrite after_parse_self, !after_parse_count by done.
    cbn. repeat split; lia.
  - unfold st1. by rewrite after_parse_self.
  - unfold st1. by rewrite after_parse_world.
Qed.

(** A pass in which the model gives its final answer. *)
Lemma pass_answer (st : state) (prompt response : str) (w1 : World)
    (warn : list str) (answer thought : str) :
  _llm (self st) prompt (world st) = (Ok response, w1) ->
  parse_output response = (warn, Ok (answer_record answer thought)) ->
  exists st',
    run_body prompt st
    = (Ok (Return (mkResult answer (answer_prompt prompt thought answer))), st')
    /\ self st' = self st /\ world st' = w1
    /\ count_events is_llm_call (trace st')
       = S (count_events is_llm_call (trace st))
    /\ count_events is_tool_call (trace st')
       = count_events is_tool_call (trace st).
Proof.
  intros Hllm Hparse.
  rewrite (run_body_parsed _ _ _ _ _ _ Hllm Hparse), dispatch_answer.
  eexists. split; [reflexivity|].
  rewrite verbose_log_self, verbose_log_world, !verbose_log_count by done.
  rewrite after_parse_self, after_parse_world, !after_parse_count by done.
  cbn. repeat split; lia.
Qed.

(** The scenario of a tool call followed by a final answer. *)
Lemma run_tool_then_answer (st : state) (question p0 r1 r2 : str)
    (w1 w2 w3 : World) (warn1 warn2 : list str)
    (tool input thought1 out answer thought2 : str) (the_tool : Tool) :
  create_prompt (self st) question PREFIX SUFFIX INSTRUCTIONS = Some (Ok p0) ->
  _llm (self st) p0 (world st) = (Ok r1, w1) ->
  parse_output r1 = (warn1, Ok (tool_record tool input thought1)) ->
  tool_dict (self st) !! tool = Some the_tool ->
  func the_tool input w1 = (Ok out, w2) ->
  _llm (self st) (tool_prompt p0 thought1 tool input out) w2 = (Ok r2, w3) ->
  parse_output r2 = (warn2, Ok (answer_record answer thought2)) ->
  forall fuel, (2 <= fuel)%nat ->
  exists st',
    run fuel question st
    = Returned
        (mkResult answer
           (answer_prompt (tool_prompt p0 thought1 tool input out)
                          thought2 answer))
        st'
    /\ count_events is_llm_call (trace st')
       = (count_events is_llm_call (trace st) + 2)%nat
    /\ count_events is_tool_call (trace st')
       = (count_events is_tool_call (trace st) + 1)%nat.
Proof.
  intros Hcp Hllm1 Hp1 Hreg Hfunc Hllm2 Hp2 fuel Hfuel.
  destruct fuel as [|[|fuel]]; [lia|lia|].
  unfold run. rewrite Hcp, when_verbose_eq. cbn [snd run_loop].
  set (st0 := verbose_log _ st).
  assert (Hs0 : self st0 = self st) by apply verbose_log_self.
  assert (Hw0 : world st0 = world st) by apply verbose_log_world.
  destruct (pass_tool st0 p0 r1 w1 w2 warn1 tool input thought1 out the_tool)
    as (st1 & -> & Hs1 & Hw1 & Hl1 & Ht1);
    [by rewrite Hs0, Hw0|done|by rewrite Hs0|done|].
  destruct (pass_answer st1 (tool_prompt p0 thought1 tool input out) r2 w3
              warn2 answer thought2)
    as (st2 & -> & Hs2 & Hw2 & Hl2 & Ht2);
    [by rewrite Hs1, Hs0, Hw1|done|].
  exists st2. split; [reflexivity|].
  rewrite Hl2, Ht2, Hl1, Ht1. unfold st0.
  rewrite !verbose_log_count by done. lia.
Qed.

(** C3: the steps of the loop.  After the model answered and the parser
    returned a tool-call record, the tool is run and the pass ends with the
    prompt extended by the thought, the action, its input and the
    observation, the placeholder standing for an empty tool output; after a
    final-answer record the pass returns the answer and the prompt extended
    by the thought and the answer.  With a model that first asks for a
    registered tool and then gives its final answer, [run] returns after two
    calls of the model and one of the tool, and the full text ends in
    [Final Answer: <answer>]. *)
Theorem run_follows_steps :
  (forall st prompt response w warn tool input thought,
      _llm (self st) prompt (world st) = (Ok response, w) ->
      parse_output response = (warn, Ok (tool_record tool input thought)) ->
      match run_tool tool input
              (after_parse prompt response warn
                           (tool_record tool input thought) w st) with
      | (Ok out, st') =>
          exists st'',
            run_body prompt st
            = (Ok (Continue
                     (prompt ++ thought ++ py "\nAction: " ++ tool
                        ++ py "\nAction Input: " ++ input
                        ++ py "\nObservation: "
                        ++ (if bool_decide (out = [])
                            then py "Tool returned no results" else out)
                        ++ py "\n")),
               st'')
      | (Raise e, st') => run_body prompt st = (Raise e, st')
      end)
  /\ (forall st prompt response w warn answer thought,
        _llm (self st) prompt (world st) = (Ok response, w) ->
        parse_output response = (warn, Ok (answer_record answer thought)) ->
        exists st',
          run_body prompt st
          = (Ok (Return
                   (mkResult answer
                      (prompt ++ thought ++ py "\nFinal Answer: " ++ answer))),
             st'))
  /\ (forall st question p0 r1 r2 w1 w2 w3 warn1 warn2
             tool input thought1 out answer thought2 the_tool,
        create_prompt (self st) question PREFIX SUFFIX INSTRUCTIONS
        = Some (Ok p0) ->
        _llm (self st) p0 (world st) = (Ok r1, w1) ->
        parse_output r1 = (warn1, Ok (tool_record tool input thought1)) ->
        tool_dict (self st) !! tool = Some the_tool ->
        func the_tool input w1 = (Ok out, w2) ->
        _llm (self st) (tool_prompt p0 thought1 tool input out) w2
        = (Ok r2, w3) ->
        parse_output r2 = (warn2, Ok (answer_record answer thought2)) ->
        forall fuel, (2 <= fuel)%nat ->
        exists st' before,
          run fuel question st
          = Returned (mkResult answer (before ++ py "Final Answer: " ++ answer))
                     st'
          /\ count_events is_llm_call (trace st')
             = (count_events is_llm_call (trace st) + 2)%nat
          /\ count_events is_tool_call (trace st')
             = (count_events is_tool_call (trace st) + 1)%nat).
Proof.
  split; [|split].
  - intros st prompt response w warn tool input thought Hllm Hparse.
    rewrite (run_body_parsed _ _ _ _ _ _ Hllm Hparse), dispatch_tool.
    destruct (run_tool _ _ _) as [[out|e] st']; [|reflexivity].
    eexists. reflexivity.
  - intros st prompt response w warn answer thought Hllm Hparse.
    rewrite (run_body_parsed _ _ _ _ _ _ Hllm Hparse), dispatch_answer.
    eexists. reflexivity.
  - intros st question p0 r1 r2 w1 w2 w3 warn1 warn2
           tool input thought1 out answer thought2 the_tool
           Hcp Hllm1 Hp1 Hreg Hfunc Hllm2 Hp2 fuel Hfuel.
    destruct (run_tool_then_answer st question p0 r1 r2 w1 w2 w3 warn1 warn2
                tool input thought1 out answer thought2 the_tool
                Hcp Hllm1 Hp1 Hreg Hfunc Hllm2 Hp2 fuel Hfuel)
      as (st' & Hrun & Hl & Ht).
    exists st', (tool_prompt p0 thought1 tool input out ++ thought2 ++ py "\n").
    split; [|done]. rewrite Hrun. unfold answer_prompt.
    assert (E : py "\nFinal Answer: " = py "\n" ++ py "Final Answer: ")
      by (vm_compute; reflexivity).
    rewrite E, <- !app_assoc. reflexivity.
Qed.

(** *** A response the parser cannot read *)

(** C4, as amended: when the model returns an output for which
    [parse_output] returns a plain string, the pass raises a [TypeError]
    (a [str] takes no [str] index), which is not a [LookupError]; the loop
    does not go on and [run] does not return, however much fuel it has. *)
Theorem run_unparsed_raises (st : state) (prompt response : str) (w : World)
    (warn : list str) (s : str) (fuel : nat) :
  _llm (self st) prompt (world st) = (Ok response, w) ->
  parse_output response = (warn, Ok (Str s)) ->
  exists e,
    exn_cls e = TypeError
    /\ is_LookupError (exn_cls e) = false
    /\ (exists st', run_loop (S fuel) prompt st = Raised e st')
    /\ (forall question,
          create_prompt (self st) question PREFIX SUFFIX INSTRUCTIONS
          = Some (Ok prompt) ->
          exists st', run (S fuel) question st = Raised e st').
Proof.
  intros Hllm Hparse.
  exists (mkExn TypeError (py "string indices must be integers, not 'str'")).
  split; [reflexivity|]. split; [reflexivity|]. split.
  - cbn [run_loop].
    rewrite (run_body_parsed _ _ _ _ _ _ Hllm Hparse), dispatch_str. eauto.
  - intros question Hcp. unfold run. rewrite Hcp, when_verbose_eq.
    cbn [snd run_loop].
    erewrite run_body_parsed; [|rewrite verbose_log_self, verbose_log_world;
                                 exact Hllm|exact Hparse].
    rewrite dispatch_str. eauto.
Qed.

(** *** The agent is not assigned to *)

Lemma keeps_self_ret {A} (a : A) : keeps_self (m_ret a).
Proof. by intros st. Qed.

Lemma keeps_self_bind {A B} (m : M A) (k : A -> M B) :
  keeps_self m -> (forall a, keeps_self (k a)) -> keeps_self (m_bind m k).
Proof.
  intros Hm Hk st. unfold m_bind. specialize (Hm st).
  destruct (m st) as [[a|e] st1]; cbn [snd] in *; [|done].
  by rewrite Hk.
Qed.

Lemma keeps_self_lift {A} (r : res A) : keeps_self (m_lift r).
Proof. by intros st. Qed.

Lemma keeps_self_self {A} (f : Agent -> A) : keeps_self (m_self f).
Proof. by intros st. Qed.

Lemma keeps_self_when_verbose (ss : list str) : keeps_self (when_verbose ss).
Proof. intros st. rewrite when_verbose_eq. apply verbose_log_self. Qed.

Lemma keeps_self_parse (p : P pyval) : keeps_self (m_parse p).
Proof. by intros st. Qed.

Lemma keeps_self_call f arg e : keeps_self (m_call f arg e).
Proof. intros st. unfold m_call. by destruct (f arg (world st)). Qed.

Lemma keeps_self_try {A} (body : M A) (handler : exn -> M A) :
  keeps_self body -> (forall e, keeps_self (handler e)) ->
  keeps_self (m_try body handler).
Proof.
  intros Hb Hh st. unfold m_try. specialize (Hb st).
  destruct (body st) as [[a|e] st1]; cbn [snd] in *; [done|].
  destruct (is_Exception (exn_cls e)); [|done]. by rewrite Hh.
Qed.

Ltac keeps_self :=
  repeat first
    [ apply keeps_self_ret | apply keeps_self_lift | apply keeps_self_self
    | apply keeps_self_when_verbose | apply keeps_self_parse
    | apply keeps_self_call
    | apply keeps_self_try; [|intros ?]
    | apply keeps_self_bind; [|intros ?]
    | progress cbv zeta
    | match goal with
      | |- keeps_self (if ?b then _ else _) => destruct b
      | |- keeps_self (match ?o with Some _ => _ | None => _ end) => destruct o
      end ].

Lemma keeps_self_run_tool (tool_name tool_input : str) :
  keeps_self (run_tool tool_name tool_input).
Proof. unfold run_tool. keeps_self. Qed.

Lemma keeps_self_dispatch (prompt : str) (action : pyval) :
  keeps_self (dispatch prompt action).
Proof. unfold dispatch. keeps_self; apply keeps_self_run_tool. Qed.

Lemma keeps_self_run_body (prompt : str) : keeps_self (run_body prompt).
Proof. unfold run_body. keeps_self; apply keeps_self_dispatch. Qed.

(** *** The prompt only grows *)

Lemma extends_prompt_bind {A} (prompt : str) (m : M A) (k : A -> M step) :
  (forall a, extends_prompt prompt (k a)) ->
  extends_prompt prompt (m_bind m k).
Proof.
  intros Hk st s st'. unfold m_bind.
  destruct (m st) as [[a|e] st1]; [apply Hk|discriminate].
Qed.

Lemma extends_prompt_continue (prompt more : str) :
  extends_prompt prompt (m_ret (Continue (prompt ++ more))).
Proof. intros st s st' [= <- _]. by apply prefix_app_r. Qed.

Lemma extends_prompt_return (prompt more answer : str) :
  extends_prompt prompt (m_ret (Return (mkResult answer (prompt ++ more)))).
Proof. intros st s st' [= <- _]. by apply prefix_app_r. Qed.

Lemma extends_prompt_dispatch (prompt : str) (action : pyval) :
  extends_prompt prompt (dispatch prompt action).
Proof.
  unfold dispatch.
  apply extends_prompt_bind; intros kind. destruct (bool_decide _).
  - do 7 (apply extends_prompt_bind; intros ?).
    apply extends_prompt_continue.
  - apply extends_prompt_bind; intros kind'. destruct (bool_decide _).
    + do 4 (apply extends_prompt_bind; intros ?).
      apply extends_prompt_return.
    + rewrite <- (app_nil_r prompt) at 2. apply extends_prompt_continue.
Qed.

Lemma extends_prompt_run_body (prompt : str) :
  extends_prompt prompt (run_body prompt).
Proof.
  unfold run_body. do 5 (apply extends_prompt_bind; intros ?).
  apply extends_prompt_dispatch.
Qed.

Lemma run_loop_frame (fuel : nat) (prompt : str) (st : state) :
  match run_loop fuel prompt st with
  | Returned r st' => self st' = self st /\ prompt `prefix_of` full_text r
  | Running prompt' st' => self st' = self st /\ prompt `prefix_of` prompt'
  | Raised e st' => self st' = self st
  | Unmodelled => True
  end.
Proof.
  revert prompt st. induction fuel as [|fuel IH]; intros prompt st.
  - cbn [run_loop]. done.
  - cbn [run_loop].
    pose proof (keeps_self_run_body prompt st) as Hs.
    pose proof (extends_prompt_run_body prompt st) as Hp.
    destruct (run_body prompt st) as [[[prompt'|r]|e] st1]; cbn [snd] in Hs.
    + specialize (Hp _ _ eq_refl). cbv beta iota in Hp.
      specialize (IH prompt' st1).
      destruct (run_loop fuel prompt' st1) as [r st'|e st'|p st'|];
        [destruct IH as [IH1 IH2]; split; [congruence|by etrans]
        |congruence
        |destruct IH as [IH1 IH2]; split; [congruence|by etrans]
        |done].
    + split; [done|]. apply (Hp _ _ eq_refl).
    + done.
Qed.

Lemma same_bindings_self (st st' : state) :
  self st' = self st -> same_bindings st st'.
Proof. intros E. unfold same_bindings. by rewrite E. Qed.

(** C10: [run] leaves the agent as it found it.  Whether it returned, raised
    or is still looping after any number of passes, the model, the tools and
    the flag of the agent, and with them [tool_dict] and [tool_names], are
    those of the start; and the initial prompt is a prefix of the current
    prompt, and of the full text returned. *)
Theorem run_keeps_bindings (fuel : nat) (question : str) (st : state) :
  match run fuel question st with
  | Returned r st' =>
      same_bindings st st'
      /\ exists p0,
           create_prompt (self st) question PREFIX SUFFIX INSTRUCTIONS
           = Some (Ok p0)
           /\ p0 `prefix_of` full_text r
  | Running prompt st' =>
      same_bindings st st'
      /\ exists p0,
           create_prompt (self st) question PREFIX SUFFIX INSTRUCTIONS
           = Some (Ok p0)
           /\ p0 `prefix_of` prompt
  | Raised e st' => same_bindings st st'
  | Unmodelled => True
  end.
Proof.
  unfold run.
  destruct (create_prompt (self st) question PREFIX SUFFIX INSTRUCTIONS)
    as [[p0|e]|]; [|by apply same_bindings_self|done].
  rewrite when_verbose_eq. cbn [snd].
  set (st0 := verbose_log _ st).
  assert (Hs0 : self st0 = self st) by apply verbose_log_self.
  pose proof (run_loop_frame fuel p0 st0) as Hf.
  destruct (run_loop fuel p0 st0) as [r st'|e st'|p st'|]; [| | |done].
  - destruct Hf as [Hs Hp]. split; [apply same_bindings_self; congruence|].
    by exists p0.
  - apply same_bindings_self; congruence.
  - destruct Hf as [Hs Hp]. split; [apply same_bindings_self; congruence|].
    by exists p0.
Qed.

End Properties.

(** ** Further properties of the agent *)

Section Further.
Context `{Env}.

(** *** The tool mapping *)

Lemma tool_dict_snoc (llm : str -> World -> res str * World) (v : bool)
    (ts : list Tool) (t : Tool) :
  tool_dict (mkAgent llm (ts ++ [t]) v)
  = <[name t := t]> (tool_dict (mkAgent llm ts v)).
Proof. unfold tool_dict. cbn [_tools]. by rewrite foldl_snoc. Qed.

Lemma tool_dict_nil (llm : str -> World -> res str * World) (v : bool) :
  tool_dict (mkAgent llm [] v) = ∅.
Proof. reflexivity. Qed.

(** X1.  A lookup in [tool_dict] finds the last tool registered under the
    name: a later tool of the same name replaces an earlier one. *)
Theorem tool_dict_last_wins (a : Agent) (ts1 ts2 : list Tool) (t : Tool) :
  _tools a = ts1 ++ t :: ts2 ->
  Forall (fun t' => name t' <> name t) ts2 ->
  tool_dict a !! name t = Some t.
Proof.
  destruct a as [llm ts v]. cbn [_tools]. intros -> Hlater.
  induction ts2 as [|x ts2 IH] using rev_ind.
  - rewrite tool_dict_snoc. apply lookup_insert_eq.
  - apply Forall_app in Hlater as [Hlater Hx].
    apply Forall_cons in Hx as [Hx _].
    replace (ts1 ++ t :: ts2 ++ [x]) with ((ts1 ++ t :: ts2) ++ [x])
      by (by rewrite <- app_assoc).
    rewrite tool_dict_snoc, lookup_insert_ne by done. by apply IH.
Qed.

(** X2.  What a lookup in [tool_dict] finds is a tool of the agent, and its
    name is the key it was looked up under. *)
Theorem tool_dict_lookup_sound (a : Agent) (n : str) (t : Tool) :
  tool_dict a !! n = Some t -> name t = n /\ t ∈ _tools a.
Proof.
  destruct a as [llm ts v]. cbn [_tools].
  induction ts as [|x ts IH] using rev_ind.
  - rewrite tool_dict_nil, lookup_empty. discriminate.
  - rewrite tool_dict_snoc. destruct (decide (name x = n)) as [E|E].
    + rewrite E, lookup_insert_eq. intros [= ->]. split; [done|].
      apply elem_of_app. right. by apply list_elem_of_singleton.
    + rewrite lookup_insert_ne by done. intros Hl.
      destruct (IH Hl) as [Hn Hin]. split; [done|].
      apply elem_of_app. by left.
Qed.

Lemma tool_dict_is_Some (a : Agent) (n : str) :
  is_Some (tool_dict a !! n) <-> n ∈ tool_names a.
Proof.
  destruct a as [llm ts v]. unfold tool_names. cbn [_tools].
  induction ts as [|x ts IH] using rev_ind.
  - rewrite tool_dict_nil, lookup_empty. split.
    + intros [? ?]. discriminate.
    + intros Hin. by apply not_elem_of_nil in Hin.
  - rewrite tool_dict_snoc, map_app, elem_of_app. cbn [map].
    rewrite list_elem_of_singleton.
    destruct (decide (name x = n)) as [E|E].
    + rewrite E, lookup_insert_eq. split; [by right|by eexists].
    + rewrite lookup_insert_ne by done. rewrite IH. split; [by left|].
      intros [Hin|Hn]; [done|]. by destruct E.
Qed.

(** X3.  The names with an entry in [tool_dict] are those of [tool_names]. *)
Theorem tool_dict_names (a : Agent) (n : str) :
  is_Some (tool_dict a !! n) <-> n ∈ tool_names a.
Proof. apply tool_dict_is_Some. Qed.

(** X4.  With distinct names the mapping has one entry per tool, and every
    tool is found under its name. *)
Theorem tool_dict_unique_names (a : Agent) :
  NoDup (tool_names a) ->
  size (tool_dict a) = length (_tools a)
  /\ forall t, t ∈ _tools a -> tool_dict a !! name t = Some t.
Proof.
  destruct a as [llm ts v]. unfold tool_names. cbn [_tools].
  induction ts as [|x ts IH] using rev_ind; intros Hnd.
  - split; [by rewrite tool_dict_nil, map_size_empty|].
    intros t Hin. by apply not_elem_of_nil in Hin.
  - rewrite map_app in Hnd. cbn [map] in Hnd.
    apply NoDup_app in Hnd as (Hnd & Hfresh & _).
    destruct (IH Hnd) as [Hsize Hfind].
    assert (Hx : name x ∉ map name ts).
    { intros Hin. apply (Hfresh _ Hin). by apply list_elem_of_singleton. }
    rewrite tool_dict_snoc. split.
    + rewrite map_size_insert_None, Hsize, length_app, Nat.add_1_r; [done|].
      apply eq_None_not_Some. intros Hs.
      apply (tool_dict_is_Some (mkAgent llm ts v)) in Hs. by apply Hx.
    + intros t Hin. apply elem_of_app in Hin as [Hin|Hin].
      * rewrite lookup_insert_ne; [by apply Hfind|].
        intros E. apply Hx. rewrite E. by apply list_elem_of_fmap_2.
      * apply list_elem_of_singleton in Hin as ->. apply lookup_insert_eq.
Qed.

(** *** Everything the parser can do *)

Lemma getitem_cases {A} (l : list A) (i : nat) :
  (exists x, getitem l i = Ok x)
  \/ getitem l i = Raise (mkExn IndexError (py "list index out of range")).
Proof. unfold getitem. destruct (l !! i); eauto. Qed.

Lemma collect_input_cases (lines : list str) (rng : list nat) (acc : str) :
  (exists input, collect_input lines rng acc = Ok input)
  \/ collect_input lines rng acc
     = Raise (mkExn IndexError (py "list index out of range")).
Proof.
  revert acc. induction rng as [|i rng IH]; intros acc; cbn [collect_input].
  - eauto.
  - destruct (getitem_cases lines i) as [[l ->]| ->]; cbn [res_bind]; [|by right].
    destruct (startswith (py "Observation:") l); [eauto|apply IH].
Qed.

Lemma contains_char_before (c : char) (s : str) :
  contains_char c (before c s) = false.
Proof.
  induction s as [|d s IH]; [reflexivity|]. cbn [before].
  destruct (d =? c) eqn:E; [reflexivity|].
  cbn [contains_char existsb]. rewrite N.eqb_sym, E. exact IH.
Qed.

Lemma contains_char_app (c : char) (a b : str) :
  contains_char c (a ++ b) = contains_char c a || contains_char c b.
Proof. apply existsb_app. Qed.

Lemma contains_char_rev (c : char) (s : str) :
  contains_char c (rev s) = contains_char c s.
Proof.
  induction s as [|d s IH]; [reflexivity|].
  cbn [rev]. rewrite contains_char_app, IH. cbn [contains_char existsb].
  rewrite orb_false_r. apply orb_comm.
Qed.

Lemma contains_char_lstrip (c : char) (s : str) :
  contains_char c s = false -> contains_char c (lstrip s) = false.
Proof.
  induction s as [|d s IH]; [done|]. cbn [lstrip].
  destruct (isspace d); [|done].
  cbn [contains_char existsb]. intros Hc.
  apply orb_false_iff in Hc as [_ Hc]. by apply IH.
Qed.

Lemma contains_char_strip (c : char) (s : str) :
  contains_char c s = false -> contains_char c (strip s) = false.
Proof.
  intros Hc. unfold strip, rstrip.
  rewrite contains_char_rev. apply contains_char_lstrip.
  rewrite contains_char_rev. by apply contains_char_lstrip.
Qed.

Lemma parse_action_cases (lines : list str) (idx : nat) (line : str) :
  exists warn r,
    parse_action lines idx line = (warn, r)
    /\ (warn = [] \/ warn = [action_input_warning])
    /\ (r = Raise (mkExn IndexError (py "list index out of range"))
        \/ exists tool input thought, r = Ok (tool_record tool input thought)).
Proof.
  unfold parse_action.
  destruct (getitem_cases lines (idx + 1)) as [[next Hn]|Hn]; rewrite !Hn.
  2:{ rewrite p_bind_lift_raise. eauto 10. }
  rewrite p_bind_lift_ok, split_head, p_bind_lift_ok.
  set (warns := bool_decide (strip (before colon next) <> py "Action Input")).
  destruct (getitem_cases (split colon next) 1) as [[seg Hs]|Hs].
  - destruct (collect_input_cases lines (range (idx + 2) (length lines))
                (strip seg)) as [[input Hi]|Hi].
    + exists (if warns then [action_input_warning] else []). eexists.
      split; [|split; [destruct warns; eauto|right; eauto]].
      destruct warns; unfold p_print, p_ret; cbn [p_bind];
        rewrite p_bind_lift_ok, Hs, p_bind_lift_ok, Hi, p_bind_lift_ok;
        reflexivity.
    + exists (if warns then [action_input_warning] else []). eexists.
      split; [|split; [destruct warns; eauto|left; reflexivity]].
      destruct warns; unfold p_print, p_ret; cbn [p_bind];
        rewrite p_bind_lift_ok, Hs, p_bind_lift_ok, Hi, p_bind_lift_raise;
        reflexivity.
  - exists (if warns then [action_input_warning] else []). eexists.
    split; [|split; [destruct warns; eauto|left; reflexivity]].
    destruct warns; unfold p_print, p_ret; cbn [p_bind];
      rewrite p_bind_lift_ok, Hs, p_bind_lift_raise; reflexivity.
Qed.

Lemma parse_answer_cases (lines : list str) (idx : nat) (line : str) :
  contains_char colon line = true ->
  exists answer thought,
    parse_answer lines idx line = ([], Ok (answer_record answer thought))
    /\ contains_char colon answer = false.
Proof.
  intros Hc. unfold parse_answer.
  rewrite (split_second _ _ Hc), p_bind_lift_ok.
  eexists _, _. split; [reflexivity|].
  apply contains_char_strip, contains_char_before.
Qed.

Lemma parse_output_cases (output : str) :
  exists warn r,
    parse_output output = (warn, r)
    /\ (warn = [] \/ warn = [action_input_warning])
    /\ match r with
       | Raise e => e = mkExn IndexError (py "list index out of range")
       | Ok (Str s) => warn = [] /\ s = output ++ py "\n" ++ no_action_warning
       | Ok (Dict d) =>
           (exists tool input thought,
               Dict d = tool_record tool input thought)
           \/ (warn = []
               /\ exists answer thought,
                    Dict d = answer_record answer thought
                    /\ contains_char colon answer = false)
       end.
Proof.
  unfold parse_output.
  generalize (range 0 (length (splitlines output))) as rng.
  generalize (splitlines output) as lines.
  intros lines rng. induction rng as [|idx rng IH].
  - cbn [parse_loop]. eexists _, _. split; [reflexivity|]. cbv beta iota.
    split; [by left|]. by split.
  - cbn [parse_loop].
    destruct (getitem_cases lines idx) as [[line ->]| ->].
    2:{ rewrite p_bind_lift_raise. eexists _, _. split; [reflexivity|].
        split; [by left|reflexivity]. }
    rewrite p_bind_lift_ok.
    destruct (contains_char colon line) eqn:Hc; [|exact IH].
    rewrite split_head, p_bind_lift_ok.
    destruct (bool_decide (strip (before colon line) = py "Action")).
    + destruct (parse_action_cases lines idx line)
        as (warn & r & -> & Hw & [-> | (tool & input & thought & ->)]).
      * exists warn. eexists. split; [reflexivity|]. by split.
      * exists warn. eexists. split; [reflexivity|]. split; [done|].
        left. eauto.
    + destruct (bool_decide (strip (before colon line) = py "Final Answer"));
        [|exact IH].
      destruct (parse_answer_cases lines idx line Hc)
        as (answer & thought & -> & Hans).
      eexists _, _. split; [reflexivity|]. split; [by left|].
      right. split; [done|]. eauto.
Qed.

(** X5.  What [parse_output] can return, for every output.
    - It prints nothing, or the one warning about the action input.
    - If it raises, it raises the [IndexError] of an index out of range
      (lines 141 and 143).
    - If it returns a dict, that is a tool-call record, or a final-answer
      record whose answer has no colon, printed without a warning.
    - If it returns a string, that is the output, a newline and the
      warning text, and nothing was printed. *)
Theorem parse_output_outcomes (output : str) :
  exists warn r,
    parse_output output = (warn, r)
    /\ (warn = [] \/ warn = [action_input_warning])
    /\ match r with
       | Raise e => e = mkExn IndexError (py "list index out of range")
       | Ok (Str s) => warn = [] /\ s = output ++ py "\n" ++ no_action_warning
       | Ok (Dict d) =>
           (exists tool input thought,
               Dict d = tool_record tool input thought)
           \/ (warn = []
               /\ exists answer thought,
                    Dict d = answer_record answer thought
                    /\ contains_char colon answer = false)
       end.
Proof. apply parse_output_cases. Qed.

(** *** The tool input, line by line *)

Lemma join_grow (sep a l : str) (more : list str) :
  join sep ((a ++ sep ++ l) :: more) = a ++ sep ++ join sep (l :: more).
Proof. destruct more; cbn [join]; by rewrite <- ?app_assoc. Qed.

Lemma input_of_join (acc : str) (more : list str) :
  Forall (fun l => startswith (py "Observation:") l = false) more ->
  input_of acc more = join (py "\n") (acc :: more).
Proof.
  revert acc. induction more as [|l more IH]; intros acc Hall; [reflexivity|].
  apply Forall_cons in Hall as [Hl Hall].
  cbn [input_of]. rewrite Hl, (IH _ Hall), join_grow.
  destruct more; reflexivity.
Qed.

Lemma input_of_observation (acc : str) (more rest : list str) (obs : str) :
  Forall (fun l => startswith (py "Observation:") l = false) more ->
  startswith (py "Observation:") obs = true ->
  input_of acc (more ++ obs :: rest) = join (py "\n") (acc :: more).
Proof.
  revert acc. induction more as [|l more IH]; intros acc Hall Hobs.
  - cbn [app input_of]. by rewrite Hobs.
  - apply Forall_cons in Hall as [Hl Hall].
    cbn [app input_of]. rewrite Hl, (IH _ Hall Hobs), join_grow.
    destruct more; reflexivity.
Qed.

Lemma parse_output_action_lines (output : str) (pre more rest : list str)
    (line next : str) :
  splitlines output = pre ++ line :: next :: more ++ rest ->
  Forall passed_over pre ->
  contains_char colon line = true ->
  strip (before colon line) = py "Action" ->
  contains_char colon next = true ->
  Forall (fun l => startswith (py "Observation:") l = false) more ->
  match rest with
  | [] => True
  | obs :: _ => startswith (py "Observation:") obs = true
  end ->
  parse_output output
  = (if bool_decide (strip (before colon next) <> py "Action Input")
     then [action_input_warning] else [],
     Ok (tool_record
           (strip (after colon line))
           (join (py "\n") (strip (before colon (after colon next)) :: more))
           (join (py "\n") pre))).
Proof.
  intros Hlines Hpre Hc Ha Hn Hmore Hrest.
  rewrite (parse_output_action output pre (more ++ rest) line next)
    by assumption.
  do 3 f_equal. destruct rest as [|obs rest].
  - rewrite app_nil_r. by apply input_of_join.
  - by apply input_of_observation.
Qed.

(** X6.  A tool call in full.  The first marker line is an [Action] line,
    the line after it has a colon, [more] are the lines up to the first that
    starts with [Observation:] (or up to the end).  The tool is the text
    after the first colon of the [Action] line, the input is the text
    between the first and the second colon of the next line followed by the
    lines [more] as they are, the thought is the lines before; whatever
    comes from the [Observation:] line on is ignored. *)
Theorem parse_output_tool_call (output : str) (pre more rest : list str)
    (line next : str) :
  splitlines output = pre ++ line :: next :: more ++ rest ->
  Forall passed_over pre ->
  contains_char colon line = true ->
  strip (before colon line) = py "Action" ->
  contains_char colon next = true ->
  Forall (fun l => startswith (py "Observation:") l = false) more ->
  match rest with
  | [] => True
  | obs :: _ => startswith (py "Observation:") obs = true
  end ->
  parse_output output
  = (if bool_decide (strip (before colon next) <> py "Action Input")
     then [action_input_warning] else [],
     Ok (tool_record
           (strip (after colon line))
           (join (py "\n") (strip (before colon (after colon next)) :: more))
           (join (py "\n") pre))).
Proof. apply parse_output_action_lines. Qed.

(** *** How a pass of the loop can end *)

Lemma run_tool_raise_inv (st st' : state) (tool_name tool_input : str) (e : exn) :
  run_tool tool_name tool_input st = (Raise e, st') ->
  exists the_tool w,
    tool_dict (self st) !! tool_name = Some the_tool
    /\ func the_tool tool_input (world st) = (Raise e, w)
    /\ is_Exception (exn_cls e) = false.
Proof.
  unfold run_tool, m_bind, m_self. cbv beta iota.
  destruct (tool_dict (self st) !! tool_name) as [the_tool|]; [|discriminate].
  unfold m_try, m_call.
  destruct (func the_tool tool_input (world st)) as [[out|e'] w] eqn:Hf;
    [discriminate|].
  destruct (is_Exception (exn_cls e')) eqn:He; [discriminate|].
  intros [= -> _]. eauto.
Qed.

Lemma observation_nonempty (out : str) : observation out <> [].
Proof.
  unfold observation. destruct (bool_decide (out = [])) eqn:E.
  - vm_compute. discriminate.
  - by apply bool_decide_eq_false in E.
Qed.

Lemma run_body_llm_raise (st : state) (prompt : str) (e : exn) (w : World) :
  _llm (self st) prompt (world st) = (Raise e, w) ->
  run_body prompt st
  = (Raise e, mkState (self st) w (trace st ++ [CallLLM prompt])).
Proof.
  intros Hllm. unfold run_body.
  erewrite m_bind_ok by reflexivity.
  erewrite m_bind_raise by (unfold m_call; rewrite Hllm; reflexivity).
  reflexivity.
Qed.

(** A pass that does not raise either goes on with the prompt extended by a
    thought, an action, its input and a non-empty observation, or returns an
    answer without a colon together with the prompt extended by a thought
    and that answer.  In particular the loop never goes round with the
    prompt unchanged. *)
Lemma run_body_ok_inv (prompt : str) (st st' : state) (s : step) :
  run_body prompt st = (Ok s, st') ->
  match s with
  | Continue prompt' =>
      exists thought tool input obs,
        obs <> []
        /\ prompt' = prompt ++ thought ++ py "\nAction: " ++ tool
                       ++ py "\nAction Input: " ++ input
                       ++ py "\nObservation: " ++ obs ++ py "\n"
  | Return r =>
      contains_char colon (response r) = false
      /\ exists thought,
           full_text r = prompt ++ thought ++ py "\nFinal Answer: " ++ response r
  end.
Proof.
  destruct (_llm (self st) prompt (world st)) as [[resp|e] w] eqn:Hllm.
  2:{ rewrite (run_body_llm_raise _ _ _ _ Hllm). discriminate. }
  destruct (parse_output_cases resp) as (warn & r & Hp & _ & Hr).
  destruct r as [[d|str']|e].
  - rewrite (run_body_parsed _ _ _ _ _ _ Hllm Hp).
    destruct Hr as [(tool & input & thought & ->)
                   |(_ & answer & thought & -> & Hans)].
    + rewrite dispatch_tool.
      destruct (run_tool tool input _) as [[out|e] st1]; [|discriminate].
      intros [= <- _]. exists thought, tool, input, (observation out).
      split; [apply observation_nonempty|reflexivity].
    + rewrite dispatch_answer. intros [= <- _]. cbn [response full_text].
      split; [exact Hans|]. by exists thought.
  - rewrite (run_body_parsed _ _ _ _ _ _ Hllm Hp), dispatch_str. discriminate.
  - destruct (run_body_parse_raise _ _ _ _ _ _ Hllm Hp) as [st1 ->].
    discriminate.
Qed.

(** A pass raises only what the model raised, the parser's [IndexError],
    the [TypeError] of indexing an unparsed string, or what a registered
    tool raised that is not an [Exception].  It never raises [KeyError]
    reading the record. *)
Lemma run_body_raise_inv (prompt : str) (st st' : state) (e : exn) :
  run_body prompt st = (Raise e, st') ->
  (exists w, _llm (self st) prompt (world st) = (Raise e, w))
  \/ e = mkExn IndexError (py "list index out of range")
  \/ e = mkExn TypeError (py "string indices must be integers, not 'str'")
  \/ (is_Exception (exn_cls e) = false
      /\ exists tool_name the_tool tool_input w w',
           tool_dict (self st) !! tool_name = Some the_tool
           /\ func the_tool tool_input w = (Raise e, w')).
Proof.
  destruct (_llm (self st) prompt (world st)) as [[resp|e0] w] eqn:Hllm.
  2:{ rewrite (run_body_llm_raise _ _ _ _ Hllm). intros [= -> _]. eauto. }
  destruct (parse_output_cases resp) as (warn & r & Hp & _ & Hr).
  destruct r as [[d|str']|e0].
  - rewrite (run_body_parsed _ _ _ _ _ _ Hllm Hp).
    destruct Hr as [(tool & input & thought & ->)
                   |(_ & answer & thought & -> & Hans)].
    + rewrite dispatch_tool.
      destruct (run_tool tool input _) as [[out|e0] st1] eqn:Hr; [discriminate|].
      intros [= -> _].
      apply run_tool_raise_inv in Hr as (the_tool & w' & Hreg & Hf & He).
      rewrite after_parse_self in Hreg.
      right. right. right. split; [done|]. eauto 10.
    + rewrite dispatch_answer. discriminate.
  - rewrite (run_body_parsed _ _ _ _ _ _ Hllm Hp), dispatch_str.
    intros [= <- _]. right. right. by left.
  - destruct (run_body_parse_raise _ _ _ _ _ _ Hllm Hp) as [st1 ->].
    intros [= <- _]. subst e0. right. by left.
Qed.

(** *** Calls and transcript of a run *)

Lemma run_tool_trace (st : state) (tool_name tool_input : str) :
  self (run_tool tool_name tool_input st).2 = self st
  /\ (trace (run_tool tool_name tool_input st).2 = trace st
      \/ trace (run_tool tool_name tool_input st).2
         = trace st ++ [CallTool tool_name tool_input]).
Proof.
  split; [apply keeps_self_run_tool|].
  unfold run_tool, m_bind, m_self. cbv beta iota.
  destruct (tool_dict (self st) !! tool_name) as [the_tool|]; [|by left].
  right. unfold m_try, m_call.
  destruct (func the_tool tool_input (world st)) as [[out|e] w]; [done|].
  by destruct (is_Exception (exn_cls e)).
Qed.

Lemma run_body_parse_raise_state (st : state) (prompt response : str)
    (w : World) (warn : list str) (e : exn) :
  _llm (self st) prompt (world st) = (Ok response, w) ->
  parse_output response = (warn, Raise e) ->
  run_body prompt st
  = (Raise e,
     let st2 :=
       verbose_log [py "MODEL RESPONSE:"; py "\n"; response; py "\n\n"]
         (mkState (self st) w (trace st ++ [CallLLM prompt])) in
     mkState (self st2) (world st2) (trace st2 ++ map Print warn)).
Proof.
  intros Hllm Hparse. unfold run_body.
  erewrite m_bind_ok by reflexivity.
  erewrite m_bind_ok by (unfold m_call; rewrite Hllm; reflexivity).
  erewrite m_bind_ok by apply when_verbose_eq.
  erewrite m_bind_raise by (unfold m_parse; rewrite Hparse; reflexivity).
  reflexivity.
Qed.

(** However a pass ends, it has called the model once and a tool at most
    once. *)
Lemma run_body_calls (prompt : str) (st : state) :
  count_events is_llm_call (trace (run_body prompt st).2)
  = S (count_events is_llm_call (trace st))
  /\ (count_events is_tool_call (trace st)
      <= count_events is_tool_call (trace (run_body prompt st).2)
      <= S (count_events is_tool_call (trace st)))%nat.
Proof.
  destruct (_llm (self st) prompt (world st)) as [[resp|e] w] eqn:Hllm.
  2:{ rewrite (run_body_llm_raise _ _ _ _ Hllm). cbn [snd trace].
      rewrite !count_events_app. cbn. lia. }
  destruct (parse_output resp) as [warn [action|e]] eqn:Hp.
  2:{ rewrite (run_body_parse_raise_state _ _ _ _ _ _ Hllm Hp).
      cbn [snd trace].
      rewrite !count_events_app, !count_events_prints, !verbose_log_count
        by done.
      cbn [trace]. rewrite !count_events_app. cbn. lia. }
  rewrite (run_body_parsed _ _ _ _ _ _ Hllm Hp).
  set (st1 := after_parse prompt resp warn action w st).
  assert (Hl1 : count_events is_llm_call (trace st1)
                = S (count_events is_llm_call (trace st))).
  { unfold st1. rewrite after_parse_count by done. cbn. lia. }
  assert (Ht1 : count_events is_tool_call (trace st1)
                = count_events is_tool_call (trace st)).
  { unfold st1. rewrite after_parse_count by done. cbn. lia. }
  destruct (parse_output_cases resp) as (warn' & r & Hp' & _ & Hr).
  rewrite Hp in Hp'. injection Hp' as <- <-.
  destruct action as [d|str'].
  - destruct Hr as [(tool & input & thought & ->)
                   |(_ & answer & thought & -> & _)].
    + rewrite dispatch_tool.
      destruct (run_tool_trace st1 tool input) as [_ Htr].
      destruct (run_tool tool input st1) as [[out|e] st2]; cbn [snd] in *.
      * rewrite !verbose_log_count by done.
        destruct Htr as [-> | ->]; rewrite ?count_events_app; cbn; lia.
      * destruct Htr as [-> | ->]; rewrite ?count_events_app; cbn; lia.
    + rewrite dispatch_answer. cbn [snd].
      rewrite !verbose_log_count by done. lia.
  - rewrite dispatch_str. cbn [snd]. lia.
Qed.

(** X11.  [run] calls the model once per pass, and a tool at most once per
    pass: after [n] passes the trace has [n] more calls of the model and at most
    [n] more calls of tools, with [n] the fuel when the loop is still
    running and at least one when [run] has returned. *)
Theorem run_calls (fuel : nat) (question : str) (st st' : state) :
  final_state (run fuel question st) = Some st' ->
  exists n,
    (n <= fuel)%nat
    /\ count_events is_llm_call (trace st')
       = (count_events is_llm_call (trace st) + n)%nat
    /\ (count_events is_tool_call (trace st)
        <= count_events is_tool_call (trace st')
        <= count_events is_tool_call (trace st) + n)%nat
    /\ match run fuel question st with
       | Running _ _ => n = fuel
       | Returned _ _ => (1 <= n)%nat
       | _ => True
       end.
Proof.
  unfold run.
  destruct (create_prompt (self st) question PREFIX SUFFIX INSTRUCTIONS)
    as [[p0|e]|]; [|cbn; intros [= <-]; exists 0%nat; split; [lia|];
                     split; [lia|]; split; [lia|done]|discriminate].
  rewrite when_verbose_eq. cbn [snd].
  set (st0 := verbose_log _ st).
  assert (Hl0 : count_events is_llm_call (trace st0)
                = count_events is_llm_call (trace st))
    by (by apply verbose_log_count).
  assert (Ht0 : count_events is_tool_call (trace st0)
                = count_events is_tool_call (trace st))
    by (by apply verbose_log_count).
  rewrite <- Hl0, <- Ht0. clearbody st0. clear Hl0 Ht0.
  revert p0 st0. induction fuel as [|fuel IH]; intros prompt st0.
  - cbn. intros [= <-]. exists 0%nat. repeat split; lia.
  - cbn [run_loop].
    destruct (run_body_calls prompt st0) as [Hl Ht].
    destruct (run_body prompt st0) as [[[prompt'|r]|e] st1]; cbn [snd] in *.
    + intros Hfin. destruct (IH prompt' st1 Hfin) as (n & Hn & Hln & Htn & Hk).
      exists (S n). split; [lia|]. split; [lia|]. split; [lia|].
      destruct (run_loop fuel prompt' st1); [lia|done|lia|done].
    + cbn. intros [= <-]. exists 1%nat. split; [lia|]. split; [lia|].
      split; [lia|done].
    + cbn. intros [= <-]. exists 1%nat. split; [lia|]. split; [lia|].
      split; [lia|done].
Qed.

Lemma blocks_nil : concat (map block_text []) = [].
Proof. reflexivity. Qed.

Lemma blocks_cons (thought tool input obs : str)
    (blocks : list (str * str * str * str)) :
  concat (map block_text ((thought, tool, input, obs) :: blocks))
  = thought ++ py "\nAction: " ++ tool ++ py "\nAction Input: " ++ input
      ++ py "\nObservation: " ++ obs ++ py "\n"
      ++ concat (map block_text blocks).
Proof. cbn [map concat block_text]. by rewrite <- !app_assoc. Qed.

Lemma run_loop_transcript (fuel : nat) (prompt : str) (st : state) :
  match run_loop fuel prompt st with
  | Running prompt' _ =>
      exists blocks,
        length blocks = fuel
        /\ Forall (fun b => block_obs b <> []) blocks
        /\ prompt' = prompt ++ concat (map block_text blocks)
  | Returned r _ =>
      exists blocks thought,
        (length blocks < fuel)%nat
        /\ Forall (fun b => block_obs b <> []) blocks
        /\ contains_char colon (response r) = false
        /\ full_text r
           = prompt ++ concat (map block_text blocks)
               ++ thought ++ py "\nFinal Answer: " ++ response r
  | _ => True
  end.
Proof.
  revert prompt st. induction fuel as [|fuel IH]; intros prompt st.
  - cbn [run_loop]. exists []. split; [done|]. split; [constructor|].
    by rewrite blocks_nil, app_nil_r.
  - cbn [run_loop].
    pose proof (run_body_ok_inv prompt st) as Hinv.
    destruct (run_body prompt st) as [[[prompt'|r]|e] st1]; [| |done].
    + destruct (Hinv _ _ eq_refl) as (thought & tool & input & obs & Hobs & Hp).
      specialize (IH prompt' st1).
      destruct (run_loop fuel prompt' st1) as [r st2|e st2|p st2|];
        [| | |done]; [|done|].
      * destruct IH as (blocks & th & Hlen & Hall & Hc & Hft).
        exists ((thought, tool, input, obs) :: blocks), th.
        split; [cbn; lia|]. split; [by constructor|]. split; [done|].
        rewrite Hft, Hp, blocks_cons. by rewrite <- !app_assoc.
      * destruct IH as (blocks & Hlen & Hall & Hpr).
        exists ((thought, tool, input, obs) :: blocks).
        split; [cbn; lia|]. split; [by constructor|].
        rewrite Hpr, Hp, blocks_cons. by rewrite <- !app_assoc.
    + destruct (Hinv _ _ eq_refl) as (Hc & thought & Hft).
      exists [], thought. split; [cbn; lia|]. split; [constructor|].
      split; [done|]. rewrite blocks_nil, app_nil_l. exact Hft.
Qed.

(** X12.  The prompt is the whole history.  While the loop runs, the prompt
    is the initial prompt followed by one block per pass, each a thought, an
    action, its input and a non-empty observation; when [run] returns, the
    full text is the initial prompt, the blocks of the earlier passes, the
    last thought and [Final Answer:] with the response, and the response
    has no colon. *)
Theorem run_transcript (fuel : nat) (question : str) (st : state) :
  match run fuel question st with
  | Running prompt _ =>
      exists p0 blocks,
        create_prompt (self st) question PREFIX SUFFIX INSTRUCTIONS
        = Some (Ok p0)
        /\ length blocks = fuel
        /\ Forall (fun b => block_obs b <> []) blocks
        /\ prompt = p0 ++ concat (map block_text blocks)
  | Returned r _ =>
      exists p0 blocks thought,
        create_prompt (self st) question PREFIX SUFFIX INSTRUCTIONS
        = Some (Ok p0)
        /\ (length blocks < fuel)%nat
        /\ Forall (fun b => block_obs b <> []) blocks
        /\ contains_char colon (response r) = false
        /\ full_text r
           = p0 ++ concat (map block_text blocks)
               ++ thought ++ py "\nFinal Answer: " ++ response r
  | _ => True
  end.
Proof.
  unfold run.
  destruct (create_prompt (self st) question PREFIX SUFFIX INSTRUCTIONS)
    as [[p0|e]|]; [|done|done].
  set (st0 := (when_verbose _ st).2).
  pose proof (run_loop_transcript fuel p0 st0) as Ht.
  destruct (run_loop fuel p0 st0) as [r st'|e st'|p st'|]; [| | |done]; [|done|].
  - destruct Ht as (blocks & thought & Ht). by exists p0, blocks, thought.
  - destruct Ht as (blocks & Ht). by exists p0, blocks.
Qed.

Lemma run_loop_raise_inv (fuel : nat) (prompt : str) (st st' : state) (e : exn) :
  run_loop fuel prompt st = Raised e st' ->
  (exists p w w', _llm (self st) p w = (Raise e, w'))
  \/ e = mkExn IndexError (py "list index out of range")
  \/ e = mkExn TypeError (py "string indices must be integers, not 'str'")
  \/ (is_Exception (exn_cls e) = false
      /\ exists tool_name the_tool tool_input w w',
           tool_dict (self st) !! tool_name = Some the_tool
           /\ func the_tool tool_input w = (Raise e, w')).
Proof.
  revert prompt st. induction fuel as [|fuel IH]; intros prompt st;
    cbn [run_loop]; [discriminate|].
  pose proof (keeps_self_run_body prompt st) as Hs.
  pose proof (run_body_raise_inv prompt st) as Hinv.
  destruct (run_body prompt st) as [[[prompt'|r]|e0] st1]; cbn [snd] in Hs.
  - intros Hr. apply IH in Hr. by rewrite Hs in Hr.
  - discriminate.
  - intros [= -> ->].
    destruct (Hinv _ _ eq_refl) as [[w Hw]|[Hi|[Ht|Hb]]].
    + left. by exists prompt, (world st), w.
    + right. by left.
    + right. right. by left.
    + right. right. by right.
Qed.

(** X13.  What [run] can raise: the error of formatting the initial prompt,
    what the model raised, the parser's [IndexError], the [TypeError] of
    indexing an unparsed response, or what a registered tool raised that is
    not an [Exception].  Nothing else, and in particular no [KeyError] from
    reading the parsed record. *)
Theorem run_raises_only (fuel : nat) (question : str) (st st' : state) (e : exn) :
  run fuel question st = Raised e st' ->
  create_prompt (self st) question PREFIX SUFFIX INSTRUCTIONS = Some (Raise e)
  \/ (exists p w w', _llm (self st) p w = (Raise e, w'))
  \/ e = mkExn IndexError (py "list index out of range")
  \/ e = mkExn TypeError (py "string indices must be integers, not 'str'")
  \/ (is_Exception (exn_cls e) = false
      /\ exists tool_name the_tool tool_input w w',
           tool_dict (self st) !! tool_name = Some the_tool
           /\ func the_tool tool_input w = (Raise e, w')).
Proof.
  unfold run.
  destruct (create_prompt (self st) question PREFIX SUFFIX INSTRUCTIONS)
    as [[p0|e0]|]; [|intros [= -> _]; by left|discriminate].
  rewrite when_verbose_eq. cbn [snd]. intros Hr.
  apply run_loop_raise_inv in Hr. rewrite verbose_log_self in Hr. by right.
Qed.

(** *** Errors the loop recovers from, and errors it does not *)

Lemma observation_of_nonempty (a b : str) :
  a <> [] -> observation (a ++ b) = a ++ b.
Proof.
  intros Ha. unfold observation. rewrite bool_decide_eq_false_2; [done|].
  intros E. apply app_eq_nil in E as [E _]. done.
Qed.

(** X14.  The model asks for a tool that is not registered: no tool is
    called, the model reads [No tool with the name <name> found] as its observation
    and the loop goes on. *)
Theorem run_unknown_tool (fuel : nat) (st : state) (prompt response : str)
    (w : World) (warn : list str) (tool input thought : str) :
  _llm (self st) prompt (world st) = (Ok response, w) ->
  parse_output response = (warn, Ok (tool_record tool input thought)) ->
  tool_dict (self st) !! tool = None ->
  exists st',
    run_loop (S fuel) prompt st
    = run_loop fuel
        (prompt ++ thought ++ py "\nAction: " ++ tool
           ++ py "\nAction Input: " ++ input
           ++ py "\nObservation: "
           ++ (py "No tool with the name " ++ tool ++ py " found") ++ py "\n")
        st'
    /\ world st' = w
    /\ count_events is_tool_call (trace st')
       = count_events is_tool_call (trace st).
Proof.
  intros Hllm Hparse Hreg. cbn [run_loop].
  rewrite (run_body_parsed _ _ _ _ _ _ Hllm Hparse), dispatch_tool.
  rewrite run_tool_unregistered by (by rewrite after_parse_self).
  cbv zeta. unfold tool_prompt.
  rewrite observation_of_nonempty by (vm_compute; discriminate).
  eexists. split; [reflexivity|].
  rewrite verbose_log_world, verbose_log_count, after_parse_world,
    after_parse_count by done.
  cbn. split; [done|lia].
Qed.

(** X15.  The tool raises an [Exception]: the exception is caught, the model
    reads [Tool encountered an error: <message>] as its observation and the loop
    goes on in the world the tool left. *)
Theorem run_failing_tool (fuel : nat) (st : state) (prompt response : str)
    (w1 w2 : World) (warn : list str) (tool input thought : str)
    (the_tool : Tool) (e : exn) :
  _llm (self st) prompt (world st) = (Ok response, w1) ->
  parse_output response = (warn, Ok (tool_record tool input thought)) ->
  tool_dict (self st) !! tool = Some the_tool ->
  func the_tool input w1 = (Raise e, w2) ->
  is_Exception (exn_cls e) = true ->
  exists st',
    run_loop (S fuel) prompt st
    = run_loop fuel
        (prompt ++ thought ++ py "\nAction: " ++ tool
           ++ py "\nAction Input: " ++ input
           ++ py "\nObservation: "
           ++ (py "Tool encountered an error: " ++ exn_str e) ++ py "\n")
        st'
    /\ world st' = w2.
Proof.
  intros Hllm Hparse Hreg Hf He. cbn [run_loop].
  rewrite (run_body_parsed _ _ _ _ _ _ Hllm Hparse), dispatch_tool.
  rewrite (run_tool_caught _ tool input the_tool e w2)
    by (by rewrite ?after_parse_self, ?after_parse_world).
  cbv zeta. unfold tool_prompt.
  rewrite observation_of_nonempty by (vm_compute; discriminate).
  eexists. split; [reflexivity|].
  by rewrite verbose_log_world.
Qed.

(** X16.  The tool raises something that is not an [Exception] (a
    [KeyboardInterrupt], a [SystemExit]): [except Exception] lets it
    through and [run] ends with it. *)
Theorem run_fatal_tool (fuel : nat) (st : state) (prompt response : str)
    (w1 w2 : World) (warn : list str) (tool input thought : str)
    (the_tool : Tool) (e : exn) :
  _llm (self st) prompt (world st) = (Ok response, w1) ->
  parse_output response = (warn, Ok (tool_record tool input thought)) ->
  tool_dict (self st) !! tool = Some the_tool ->
  func the_tool input w1 = (Raise e, w2) ->
  is_Exception (exn_cls e) = false ->
  exists st', run_loop (S fuel) prompt st = Raised e st' /\ world st' = w2.
Proof.
  intros Hllm Hparse Hreg Hf He. cbn [run_loop].
  rewrite (run_body_parsed _ _ _ _ _ _ Hllm Hparse), dispatch_tool.
  set (st1 := after_parse _ _ _ _ _ _).
  assert (Hr : run_tool tool input st1
               = (Raise e, mkState (self st1) w2
                             (trace st1 ++ [CallTool tool input]))).
  { unfold run_tool, m_bind, m_self. cbv beta iota.
    unfold st1 at 1. rewrite after_parse_self, Hreg.
    unfold m_try, m_call. unfold st1 at 1. rewrite after_parse_world, Hf, He.
    reflexivity. }
  rewrite Hr. eauto.
Qed.

(** X17.  An exception of the model, or of the parser, is not caught: [run]
    ends with it, and no tool is called in that pass. *)
Theorem run_uncaught (fuel : nat) (st : state) (prompt : str) (e : exn) :
  (exists w, _llm (self st) prompt (world st) = (Raise e, w))
  \/ (exists response w warn,
        _llm (self st) prompt (world st) = (Ok response, w)
        /\ parse_output response = (warn, Raise e)) ->
  exists st',
    run_loop (S fuel) prompt st = Raised e st'
    /\ count_events is_tool_call (trace st')
       = count_events is_tool_call (trace st).
Proof.
  intros [[w Hllm]|(response & w & warn & Hllm & Hparse)]; cbn [run_loop].
  - rewrite (run_body_llm_raise _ _ _ _ Hllm). eexists. split; [reflexivity|].
    cbn [trace]. rewrite count_events_app. cbn. lia.
  - rewrite (run_body_parse_raise_state _ _ _ _ _ _ Hllm Hparse).
    eexists. split; [reflexivity|]. cbn [trace].
    rewrite count_events_app, count_events_prints, verbose_log_count by done.
    cbn [trace]. rewrite count_events_app. cbn. lia.
Qed.

(** *** Verbosity changes what is printed, and nothing else *)

Lemma calls_app (tr1 tr2 : list event) :
  calls (tr1 ++ tr2) = calls tr1 ++ calls tr2.
Proof. apply List.filter_app. Qed.

Lemma calls_prints (ss : list str) : calls (map Print ss) = [].
Proof. induction ss as [|s ss IH]; [reflexivity|exact IH]. Qed.

Lemma same_but_prints_log (st st' : state) (w : World) (added : list event) :
  same_but_prints st st' ->
  same_but_prints (mkState (self st) w (trace st ++ added))
                  (mkState (self st') w (trace st' ++ added)).
Proof.
  intros (Hs & Hw & Hc). unfold same_but_prints. cbn [self world trace].
  rewrite !calls_app, Hc. done.
Qed.

Lemma same_but_prints_verbose_log (ss ss' : list str) (st st' : state) :
  same_but_prints st st' ->
  same_but_prints (verbose_log ss st) (verbose_log ss' st').
Proof.
  intros (Hs & Hw & Hc). unfold same_but_prints, verbose_log.
  destruct (_verbose (self st)), (_verbose (self st'));
    cbn [self world trace]; rewrite ?calls_app, ?calls_prints, ?app_nil_r;
    done.
Qed.

Lemma respects_ret {A} (a : A) : respects_prints (m_ret a).
Proof. by intros st st' HR. Qed.

Lemma respects_lift {A} (r : res A) : respects_prints (m_lift r).
Proof. by intros st st' HR. Qed.

Lemma respects_bind {A B} (m : M A) (k : A -> M B) :
  respects_prints m -> (forall a, respects_prints (k a)) ->
  respects_prints (m_bind m k).
Proof.
  intros Hm Hk st st' HR. unfold m_bind.
  destruct (Hm st st' HR) as [Hr HR'].
  destruct (m st) as [[a|e] st1], (m st') as [[a'|e'] st1'];
    cbn [fst snd] in *; try discriminate.
  - injection Hr as <-. by apply Hk.
  - injection Hr as <-. done.
Qed.

Lemma respects_self {A} (f : Agent -> A) :
  (forall a, f a = f (quiet a)) -> respects_prints (m_self f).
Proof.
  intros Hf st st' HR. unfold m_self. cbn [fst snd]. split; [|done].
  destruct HR as (Hs & _). by rewrite (Hf (self st)), (Hf (self st')), Hs.
Qed.

Lemma respects_when_verbose (ss ss' : list str) (st st' : state) :
  same_but_prints st st' ->
  (when_verbose ss st).1 = (when_verbose ss' st').1
  /\ same_but_prints (when_verbose ss st).2 (when_verbose ss' st').2.
Proof.
  intros HR. rewrite !when_verbose_eq. cbn [fst snd].
  split; [done|]. by apply same_but_prints_verbose_log.
Qed.

Lemma respects_parse (p : P pyval) : respects_prints (m_parse p).
Proof.
  intros st st' HR. unfold m_parse. cbn [fst snd]. split; [done|].
  destruct HR as (Hs & Hw & Hc). unfold same_but_prints. cbn [self world trace].
  by rewrite !calls_app, Hc.
Qed.

Lemma respects_call f arg e : respects_prints (m_call f arg e).
Proof.
  intros st st' HR. unfold m_call. destruct (HR) as (Hs & Hw & Hc).
  rewrite <- Hw. destruct (f arg (world st)) as [r w]. cbn [fst snd].
  split; [done|]. unfold same_but_prints. cbn [self world trace].
  by rewrite !calls_app, Hc.
Qed.

Lemma respects_try {A} (body : M A) (handler : exn -> M A) :
  respects_prints body -> (forall e, respects_prints (handler e)) ->
  respects_prints (m_try body handler).
Proof.
  intros Hb Hh st st' HR. unfold m_try.
  destruct (Hb st st' HR) as [Hr HR'].
  destruct (body st) as [[a|e] st1], (body st') as [[a'|e'] st1'];
    cbn [fst snd] in *; try discriminate.
  - done.
  - injection Hr as <-. destruct (is_Exception (exn_cls e)); [by apply Hh|done].
Qed.

Lemma respects_run_tool (tool_name tool_input : str) :
  respects_prints (run_tool tool_name tool_input).
Proof.
  unfold run_tool. apply respects_bind; [by apply respects_self|].
  intros d. destruct (d !! tool_name) as [the_tool|]; [|apply respects_ret].
  apply respects_try; [apply respects_call|]. intros e. apply respects_ret.
Qed.

Lemma respects_bind_verbose {B} (ss : list str) (k : M B) :
  respects_prints k ->
  respects_prints (m_bind (when_verbose ss) (fun _ => k)).
Proof.
  intros Hk st st' HR. unfold m_bind. rewrite !when_verbose_eq.
  apply Hk. by apply same_but_prints_verbose_log.
Qed.

Lemma respects_dispatch (prompt : str) (action : pyval) :
  respects_prints (dispatch prompt action).
Proof.
  unfold dispatch.
  apply respects_bind; [apply respects_lift|]. intros kind.
  destruct (bool_decide (kind = py "tool")).
  - do 2 (apply respects_bind; [apply respects_lift|]; intros ?).
    apply respects_bind; [apply respects_run_tool|]. intros ?.
    do 3 (apply respects_bind; [apply respects_lift|]; intros ?).
    cbv zeta. apply respects_bind_verbose, respects_ret.
  - apply respects_bind; [apply respects_lift|]. intros kind'.
    destruct (bool_decide (kind' = py "answer")); [|apply respects_ret].
    do 2 (apply respects_bind; [apply respects_lift|]; intros ?).
    cbv zeta. apply respects_bind_verbose.
    apply respects_bind; [apply respects_lift|]. intros ?. apply respects_ret.
Qed.

Lemma respects_run_body (prompt : str) : respects_prints (run_body prompt).
Proof.
  unfold run_body.
  apply respects_bind; [by apply respects_self|]. intros llm.
  apply respects_bind; [apply respects_call|]. intros response.
  apply respects_bind_verbose.
  apply respects_bind; [apply respects_parse|]. intros action.
  apply respects_bind_verbose, respects_dispatch.
Qed.

Lemma run_loop_respects (fuel : nat) (prompt : str) (st st' : state) :
  same_but_prints st st' ->
  same_outcome (run_loop fuel prompt st) (run_loop fuel prompt st').
Proof.
  revert prompt st st'. induction fuel as [|fuel IH]; intros prompt st st' HR;
    cbn [run_loop]; [by split|].
  destruct (respects_run_body prompt st st' HR) as [Hr HR'].
  destruct (run_body prompt st) as [[[p|r]|e] st1],
           (run_body prompt st') as [[[p'|r']|e'] st1'];
    cbn [fst snd] in *; try discriminate.
  - injection Hr as <-. by apply IH.
  - injection Hr as <-. by split.
  - injection Hr as <-. by split.
Qed.

(** X18.  The verbosity flag has no effect on control flow.  Started in two
    states that differ at most in the flag and in what has been printed,
    [run] ends the same way: the same result or the same exception, the same
    world, and the same calls of the model and the tools in the same
    order. *)
Theorem run_verbose_independent (fuel : nat) (question : str) (st st' : state) :
  same_but_prints st st' ->
  same_outcome (run fuel question st) (run fuel question st').
Proof.
  intros HR. unfold run.
  assert (Hcp : create_prompt (self st') question PREFIX SUFFIX INSTRUCTIONS
                = create_prompt (self st) question PREFIX SUFFIX INSTRUCTIONS).
  { destruct HR as (Hs & _). unfold quiet in Hs. injection Hs as _ Ht.
    apply create_prompt_ext; by rewrite Ht. }
  rewrite Hcp.
  destruct (create_prompt (self st) question PREFIX SUFFIX INSTRUCTIONS)
    as [[p0|e]|]; [|by split|done].
  apply run_loop_respects. by apply respects_when_verbose.
Qed.

(** *** Replacement fields in the prompt template *)

Lemma format_from_field (question : str) (tool_names : list str)
    (fld t : str) :
  forallb field_char fld = true ->
  forall seen,
    format_from question tool_names (InField seen) (fld ++ rbrace :: t)
    = match field_value question tool_names (seen ++ fld) with
      | Some (Ok v) => emit v (format_from question tool_names InText t)
      | other => other
      end.
Proof.
  induction fld as [|c fld IH]; intros Hall seen.
  - cbn [app format_from]. rewrite N.eqb_refl, app_nil_r. reflexivity.
  - cbn [forallb] in Hall. apply andb_true_iff in Hall as [Hc Hall].
    apply negb_true_iff in Hc. cbn [app format_from].
    destruct (c =? rbrace); [discriminate|].
    destruct (c =? lbrace); [discriminate|].
    cbn [orb] in Hc. rewrite Hc.
    rewrite IH by exact Hall. by rewrite <- app_assoc.
Qed.

Lemma format_field (question : str) (tool_names : list str) (fld t : str) :
  forallb field_char fld = true ->
  format (lbrace :: fld ++ rbrace :: t) question tool_names
  = match field_value question tool_names fld with
    | Some (Ok v) => emit v (format t question tool_names)
    | other => other
    end.
Proof.
  intros Hall. unfold format.
  assert (E : format_from question tool_names InText
                (lbrace :: fld ++ rbrace :: t)
              = format_from question tool_names (InField [])
                  (fld ++ rbrace :: t)).
  { destruct fld as [|c fld].
    - cbn [app format_from]. rewrite N.eqb_refl.
      replace (rbrace =? lbrace) with false by reflexivity. reflexivity.
    - cbn [forallb] in Hall. apply andb_true_iff in Hall as [Hc _].
      apply negb_true_iff in Hc. cbn [app format_from]. rewrite N.eqb_refl.
      destruct (c =? rbrace); [discriminate|].
      destruct (c =? lbrace); [discriminate|]. reflexivity. }
  rewrite E, format_from_field by exact Hall. reflexivity.
Qed.

Lemma join_cons (sep x : str) (l : list str) :
  join sep (x :: l) = x ++ concat (map (fun y => sep ++ y) l).
Proof.
  revert x. induction l as [|z l IH]; intros x.
  - cbn. by rewrite app_nil_r.
  - change (join sep (x :: z :: l)) with (x ++ sep ++ join sep (z :: l)).
    rewrite IH. cbn [map concat]. by rewrite <- !app_assoc.
Qed.

Lemma join_middle (sep x : str) (l1 l2 : list str) :
  join sep (l1 ++ x :: l2)
  = concat (map (fun y => y ++ sep) l1) ++ x
      ++ concat (map (fun y => sep ++ y) l2).
Proof.
  induction l1 as [|y l1 IH].
  - cbn [app map concat]. apply join_cons.
  - cbn [app map concat].
    destruct (l1 ++ x :: l2) as [|z l] eqn:E; [by destruct l1|].
    change (join sep (y :: z :: l)) with (y ++ sep ++ join sep (z :: l)).
    rewrite IH. by rewrite <- !app_assoc.
Qed.

Lemma brace_free_entries (sep : str) (ts : list Tool) :
  brace_free sep = true ->
  forallb (fun tool => brace_free (name tool) && brace_free (description tool))
          ts = true ->
  brace_free (concat (map (fun y => y ++ sep) (map tool_entry ts))) = true.
Proof.
  intros Hsep. induction ts as [|t ts IH]; [reflexivity|].
  cbn [forallb map concat]. intros Hall.
  apply andb_true_iff in Hall as [Ht Hts].
  apply andb_true_iff in Ht as [Hn Hd].
  unfold tool_entry at 1.
  rewrite !brace_free_app, Hn, Hd, Hsep, (IH Hts). reflexivity.
Qed.

Lemma create_prompt_field_raise (a : Agent) (ts1 ts2 : list Tool)
    (t : Tool) (d1 fld d2 : str) (e : exn)
    (question prefix suffix instructions : str) :
  _tools a = ts1 ++ t :: ts2 ->
  description t = d1 ++ [lbrace] ++ fld ++ [rbrace] ++ d2 ->
  brace_free prefix = true ->
  forallb (fun tool => brace_free (name tool) && brace_free (description tool))
          ts1 = true ->
  brace_free (name t) = true ->
  brace_free d1 = true ->
  forallb field_char fld = true ->
  field_value question (tool_names a) fld = Some (Raise e) ->
  create_prompt a question prefix suffix instructions = Some (Raise e).
Proof.
  intros Hts Hd Hp H1 Hn Hd1 Hfld Hv.
  unfold create_prompt, tool_descriptions.
  rewrite Hts, map_app. cbn [map]. rewrite join_middle.
  unfold tool_entry at 2. rewrite Hd.
  set (A := prefix ++ py "\n\n"
              ++ concat (map (fun y => y ++ py "\n\n") (map tool_entry ts1))
              ++ name t ++ py ": " ++ d1).
  set (rest := d2 ++ concat (map (fun y => py "\n\n" ++ y) (map tool_entry ts2))
                 ++ py "\n\n" ++ instructions ++ py "\n\n" ++ suffix).
  match goal with |- format ?tpl _ _ = _ =>
    replace tpl with (A ++ lbrace :: fld ++ rbrace :: rest)
      by (unfold A, rest; rewrite <- !app_assoc; reflexivity)
  end.
  assert (HA : brace_free A = true).
  { unfold A. rewrite !brace_free_app, Hp, Hn, Hd1.
    rewrite brace_free_entries by done. reflexivity. }
  rewrite (format_app _ _ A A) by apply format_brace_free, HA.
  rewrite format_field by exact Hfld. rewrite Hv. reflexivity.
Qed.

(** X19.  A replacement field in a tool description is read by [str.format]
    like one of the template's own.  With nothing but plain text before it, the
    first such field decides: if its name is not a keyword [create_prompt]
    raises what the lookup raises ([KeyError] for a name, [IndexError] for
    an empty or numeric one), whatever the question and the rest of the
    template are. *)
Theorem create_prompt_description_field (a : Agent) (ts1 ts2 : list Tool)
    (t : Tool) (d1 fld d2 : str) (e : exn)
    (question prefix suffix instructions : str) :
  _tools a = ts1 ++ t :: ts2 ->
  description t = d1 ++ [lbrace] ++ fld ++ [rbrace] ++ d2 ->
  brace_free prefix = true ->
  forallb (fun tool => brace_free (name tool) && brace_free (description tool))
          ts1 = true ->
  brace_free (name t) = true ->
  brace_free d1 = true ->
  forallb field_char fld = true ->
  field_value question (tool_names a) fld = Some (Raise e) ->
  create_prompt a question prefix suffix instructions = Some (Raise e).
Proof. apply create_prompt_field_raise. Qed.

(** X20.  With such a field in a tool description and the default
    templates, [run] raises what the lookup of the field raises before the
    model is called: it ends in the state it started in, with nothing
    printed and nothing called. *)
Theorem run_description_field (fuel : nat) (st : state) (ts1 ts2 : list Tool)
    (t : Tool) (d1 fld d2 : str) (e : exn) (question : str) :
  _tools (self st) = ts1 ++ t :: ts2 ->
  description t = d1 ++ [lbrace] ++ fld ++ [rbrace] ++ d2 ->
  forallb (fun tool => brace_free (name tool) && brace_free (description tool))
          ts1 = true ->
  brace_free (name t) = true ->
  brace_free d1 = true ->
  forallb field_char fld = true ->
  field_value question (tool_names (self st)) fld = Some (Raise e) ->
  run fuel question st = Raised e st.
Proof.
  intros Hts Hd H1 Hn Hd1 Hfld Hv. unfold run.
  by rewrite (create_prompt_field_raise (self st) ts1 ts2 t d1 fld d2 e
                question PREFIX SUFFIX INSTRUCTIONS Hts Hd eq_refl H1 Hn Hd1
                Hfld Hv).
Qed.

(** X21.  With the default templates and tools whose names and descriptions
    have no braces, the prompt is the default prefix, the tool entries, the
    default instructions with the [repr] of the list of tool names in place
    of [{tool_names}], and [Begin], [Question:] and the question as it is:
    braces in the question are not read as fields. *)
Theorem create_prompt_default_text (a : Agent) (question : str) :
  forallb (fun tool => brace_free (name tool) && brace_free (description tool))
          (_tools a) = true ->
  exists head tail,
    INSTRUCTIONS = head ++ py "{tool_names}" ++ tail
    /\ create_prompt a question PREFIX SUFFIX INSTRUCTIONS
       = Some (Ok (PREFIX ++ py "\n\n"
                     ++ join (py "\n\n") (map tool_entry (_tools a))
                     ++ py "\n\n"
                     ++ (head ++ str_of_list (tool_names a) ++ tail)
                     ++ py "\n\n" ++ py "Begin\n\nQuestion: " ++ question
                     ++ py "\n")).
Proof.
  intros Ht.
  destruct (format_INSTRUCTIONS question (tool_names a)) as (hd & tl & Eh & Ei).
  exists hd, tl. split; [exact Eh|].
  assert (Es : SUFFIX = py "Begin\n\nQuestion: " ++ py "{question}" ++ py "\n")
    by (vm_compute; reflexivity).
  rewrite Es.
  exact (create_prompt_formatted a question PREFIX INSTRUCTIONS _
           (py "Begin\n\nQuestion: ") (py "\n") eq_refl Ht Ei eq_refl eq_refl).
Qed.

(** *** Construction and the setters *)

Lemma omap_as_Tool (ts : list Tool) : omap as_Tool (map ObjTool ts) = ts.
Proof. induction ts as [|t ts IH]; [reflexivity|]. cbn. by rewrite IH. Qed.

Lemma forallb_isinstance_Tool (ts : list Tool) :
  forallb isinstance_Tool (map ObjTool ts) = true.
Proof. induction ts as [|t ts IH]; [reflexivity|exact IH]. Qed.

(** X22.  The messages of construction, and their order.  The tools are checked
    first: with a [tools] argument that is no tool and no list of tools the
    error is about the tools whatever [verbose] is, with one message for a
    list holding something else than tools and another, naming the type,
    for anything else; only then is [verbose] checked. *)
Theorem Agent_init_messages (llm : str -> World -> res str * World)
    (tools verbose : pyobj) :
  (tool_or_tools tools = false ->
   Agent_init llm tools verbose
   = Raise (mkExn TypeError
              match tools with
              | ObjList _ => py "All tools must be langchain Tool objects"
              | _ => py "tools must be langchain Tool or list of Tools, got "
                       ++ type_repr tools
              end))
  /\ (tool_or_tools tools = true -> isinstance_bool verbose = false ->
      Agent_init llm tools verbose
      = Raise (mkExn TypeError
                 (py "verbose must be bool, got " ++ type_repr verbose))).
Proof.
  unfold Agent_init, BaseModel_init. cbn [res_bind]. split.
  - intros Ht.
    destruct tools as [| | | | |l]; cbn [tool_or_tools] in Ht;
      try discriminate Ht; cbn [tools_value res_bind]; try reflexivity.
    rewrite Ht. reflexivity.
  - intros Ht Hv. rewrite (tools_value_ok _ Ht). cbn [res_bind].
    destruct verbose; cbn [isinstance_bool] in Hv; try discriminate Hv;
      reflexivity.
Qed.

(** X23.  One tool and the list of that one tool give the same agent; and
    assigning an agent's own bindings back through the setters succeeds and
    changes nothing, while a setter that succeeds leaves the other two
    bindings alone. *)
Theorem setters_round_trip (a : Agent) :
  (forall t verbose,
      Agent_init (_llm a) (ObjTool t) verbose
      = Agent_init (_llm a) (ObjList [ObjTool t]) verbose)
  /\ set_tools a (ObjList (map ObjTool (_tools a))) = Ok a
  /\ set_verbose a (ObjBool (_verbose a)) = Ok a
  /\ set_llm a (_llm a) = Ok a
  /\ (forall value a',
        set_tools a value = Ok a' ->
        _llm a' = _llm a /\ _verbose a' = _verbose a
        /\ _tools a' = tools_of value /\ tool_or_tools value = true)
  /\ (forall value a',
        set_verbose a value = Ok a' ->
        _llm a' = _llm a /\ _tools a' = _tools a
        /\ value = ObjBool (_verbose a')).
Proof.
  destruct a as [llm ts v]. cbn [_llm _tools _verbose].
  split; [reflexivity|]. split; [|split; [reflexivity|split; [reflexivity|split]]].
  - unfold set_tools. cbn [tools_value _llm _verbose].
    rewrite forallb_isinstance_Tool. cbn [negb res_bind].
    by rewrite omap_as_Tool.
  - intros value a'. unfold set_tools. cbn [_llm _verbose].
    destruct (tool_or_tools value) eqn:Ht.
    + rewrite (tools_value_ok _ Ht). cbn [res_bind]. by intros [= <-].
    + destruct (tools_value_raise _ Ht) as [msg ->]. discriminate.
  - intros value a'. unfold set_verbose. cbn [_llm _tools].
    destruct value; cbn [verbose_value res_bind]; try discriminate.
    by intros [= <-].
Qed.

(** *** What [run] writes, the parser reads back *)

Lemma splitlines_line (l rest : str) :
  one_line l = true ->
  splitlines (l ++ newline :: rest) = l :: splitlines rest.
Proof.
  induction l as [|c l IH]; intros Hl.
  - cbn [app]. destruct rest; reflexivity.
  - cbn [one_line forallb] in Hl. apply andb_true_iff in Hl as [Hc Hl].
    apply negb_true_iff in Hc. cbn [app splitlines]. rewrite Hc.
    fold (one_line l) in Hl. by rewrite (IH Hl).
Qed.

Lemma splitlines_last (l : str) :
  one_line l = true -> l <> [] -> splitlines l = [l].
Proof.
  induction l as [|c l IH]; intros Hl Hne; [done|].
  cbn [one_line forallb] in Hl. apply andb_true_iff in Hl as [Hc Hl].
  apply negb_true_iff in Hc. fold (one_line l) in Hl.
  cbn [splitlines]. rewrite Hc.
  destruct (decide (l = [])) as [->|Hl'] ; [reflexivity|].
  rewrite IH by done. reflexivity.
Qed.

Lemma splitlines_lines (x : str) (more : list str) (rest : str) :
  one_line x = true -> Forall (fun l => one_line l = true) more ->
  splitlines (join [newline] (x :: more) ++ newline :: rest)
  = x :: more ++ splitlines rest.
Proof.
  revert x. induction more as [|y more IH]; intros x Hx Hmore.
  - cbn [join app]. by apply splitlines_line.
  - apply Forall_cons in Hmore as [Hy Hmore].
    change (join [newline] (x :: y :: more))
      with (x ++ [newline] ++ join [newline] (y :: more)).
    rewrite <- !app_assoc. cbn [app].
    rewrite (splitlines_line x _ Hx), (IH y Hy Hmore). reflexivity.
Qed.

Lemma splitlines_nonempty (s : str) : s <> [] -> splitlines s <> [].
Proof.
  destruct s as [|c s]; [done|]. intros _. cbn [splitlines].
  destruct (islinebreak c).
  - destruct s as [|d s]; [done|]. by destruct ((c =? 13) && (d =? 10)).
  - by destruct (splitlines s).
Qed.

Lemma splitlines_newline_cons (s : str) :
  s <> [] -> splitlines (newline :: s) = [] :: splitlines s.
Proof. destruct s; [done|reflexivity]. Qed.

Lemma splitlines_char_cons (c : char) (s : str) (l : str) (ls : list str) :
  islinebreak c = false -> splitlines s = l :: ls ->
  splitlines (c :: s) = (c :: l) :: ls.
Proof. intros Hc Hs. cbn [splitlines]. by rewrite Hc, Hs. Qed.

Lemma splitlines_thought (t rest : str) :
  only_newlines t = true ->
  splitlines (t ++ newline :: rest)
  = splitlines (t ++ [newline]) ++ splitlines rest.
Proof.
  induction t as [|c t IH]; intros Ht.
  - cbn [app]. destruct rest; reflexivity.
  - cbn [only_newlines forallb] in Ht. apply andb_true_iff in Ht as [Hc Ht].
    fold (only_newlines t) in Ht. specialize (IH Ht).
    pose proof (splitlines_nonempty (t ++ [newline])) as Hne.
    destruct (splitlines (t ++ [newline])) as [|l ls] eqn:El;
      [exfalso; apply Hne; [by destruct t|done]|].
    cbn [app]. destruct (islinebreak c) eqn:Hb.
    + cbn [negb orb] in Hc. apply N.eqb_eq in Hc. subst c.
      rewrite !splitlines_newline_cons by (by destruct t).
      by rewrite IH, El.
    + rewrite (splitlines_char_cons c _ l (ls ++ splitlines rest) Hb IH).
      by rewrite (splitlines_char_cons c _ l ls Hb El).
Qed.

Lemma join_splitlines (t : str) :
  only_newlines t = true -> join [newline] (splitlines (t ++ [newline])) = t.
Proof.
  induction t as [|c t IH]; intros Ht; [reflexivity|].
  cbn [only_newlines forallb] in Ht. apply andb_true_iff in Ht as [Hc Ht].
  fold (only_newlines t) in Ht. specialize (IH Ht).
  pose proof (splitlines_nonempty (t ++ [newline])) as Hne.
  destruct (splitlines (t ++ [newline])) as [|l ls] eqn:El;
    [exfalso; apply Hne; [by destruct t|done]|].
  cbn [app]. destruct (islinebreak c) eqn:Hb.
  - cbn [negb orb] in Hc. apply N.eqb_eq in Hc. subst c.
    rewrite splitlines_newline_cons by (by destruct t). rewrite El.
    change (join [newline] ([] :: l :: ls))
      with (newline :: join [newline] (l :: ls)).
    by rewrite IH.
  - rewrite (splitlines_char_cons c _ l ls Hb El).
    rewrite <- IH. destruct ls; reflexivity.
Qed.

Lemma before_app_sep (c : char) (a b : str) :
  contains_char c a = false -> before c (a ++ c :: b) = a.
Proof.
  induction a as [|d a IH]; intros Ha.
  - cbn. by rewrite N.eqb_refl.
  - cbn [contains_char existsb] in Ha. apply orb_false_iff in Ha as [Hd Ha].
    cbn [app before]. rewrite N.eqb_sym, Hd. by rewrite (IH Ha).
Qed.

Lemma after_app_sep (c : char) (a b : str) :
  contains_char c a = false -> after c (a ++ c :: b) = b.
Proof.
  induction a as [|d a IH]; intros Ha.
  - cbn. by rewrite N.eqb_refl.
  - cbn [contains_char existsb] in Ha. apply orb_false_iff in Ha as [Hd Ha].
    cbn [app after]. rewrite N.eqb_sym, Hd. by apply IH.
Qed.

Lemma before_no_sep (c : char) (a : str) :
  contains_char c a = false -> before c a = a.
Proof.
  induction a as [|d a IH]; intros Ha; [reflexivity|].
  cbn [contains_char existsb] in Ha. apply orb_false_iff in Ha as [Hd Ha].
  cbn [before]. rewrite N.eqb_sym, Hd. by rewrite (IH Ha).
Qed.

Lemma strip_space (x : str) : strip (32 :: x) = strip x.
Proof. reflexivity. Qed.

Lemma first_line_startswith (p s : str) :
  one_line p = true -> p <> [] ->
  exists l ls, splitlines (p ++ s) = l :: ls /\ startswith p l = true.
Proof.
  induction p as [|c p IH]; intros Hp Hne; [done|].
  cbn [one_line forallb] in Hp. apply andb_true_iff in Hp as [Hc Hp].
  fold (one_line p) in Hp.
  apply negb_true_iff in Hc. cbn [app splitlines]. rewrite Hc.
  destruct p as [|d p].
  - cbn [app]. destruct (splitlines s) as [|l ls]; eexists _, _;
      (split; [reflexivity|]); cbn; by rewrite N.eqb_refl.
  - destruct (IH Hp) as (l & ls & -> & Hs); [done|].
    exists (c :: l), ls. split; [reflexivity|].
    change (startswith (c :: d :: p) (c :: l))
      with ((c =? c) && startswith (d :: p) l).
    by rewrite N.eqb_refl, Hs.
Qed.

Lemma contains_char_space (x : str) :
  contains_char colon x = false -> contains_char colon (32 :: x) = false.
Proof. intros Hx. cbn [contains_char existsb]. exact Hx. Qed.

Lemma one_line_app (a b : str) :
  one_line (a ++ b) = one_line a && one_line b.
Proof. apply forallb_app. Qed.

(** X9.  The block [run] appends for a tool call parses back to that tool
    call.  The thought may have several lines (separated by line feeds, none of
    them a marker line), the tool name is one stripped line, the input is
    a first line without colon, stripped, and any further lines that do not
    start with [Observation:]; the observation is anything. *)
Theorem parse_output_reads_block (thought tool first obs : str)
    (more : list str) :
  only_newlines thought = true ->
  Forall passed_over (splitlines (thought ++ py "\n")) ->
  one_line tool = true -> strip tool = tool ->
  one_line first = true -> contains_char colon first = false ->
  strip first = first ->
  Forall (fun l => one_line l = true) more ->
  Forall (fun l => startswith (py "Observation:") l = false) more ->
  parse_output
    (block_text (thought, tool, join (py "\n") (first :: more), obs))
  = ([], Ok (tool_record tool (join (py "\n") (first :: more)) thought)).
Proof.
  intros Hth Hpre Htool Hts Hfirst Hfc Hfs Hmore Hobs.
  change (py "\n") with [newline] in *.
  set (L1 := py "Action" ++ colon :: 32 :: tool).
  set (L2 := py "Action Input" ++ colon :: 32 :: first).
  set (R2 := py "Observation:" ++ 32 :: obs ++ [newline]).
  assert (Etext : block_text (thought, tool, join [newline] (first :: more), obs)
                  = thought ++ newline
                      :: (L1 ++ newline
                            :: (join [newline] (L2 :: more) ++ newline :: R2))).
  { cbn [block_text].
    assert (EA : py "\nAction: " = newline :: py "Action" ++ [colon; 32])
      by (vm_compute; reflexivity).
    assert (EI : py "\nAction Input: "
                 = newline :: py "Action Input" ++ [colon; 32])
      by (vm_compute; reflexivity).
    assert (EO : py "\nObservation: " = newline :: py "Observation:" ++ [32])
      by (vm_compute; reflexivity).
    change (py "\n") with [newline].
    rewrite EA, EI, EO, !join_cons. unfold L1, L2, R2.
    rewrite <- !app_assoc. cbn [app]. rewrite <- !app_assoc. reflexivity. }
  destruct (first_line_startswith (py "Observation:") (32 :: obs ++ [newline]))
    as (l & ls & Hl & Hstart); [reflexivity|vm_compute; discriminate|].
  assert (HL1 : one_line L1 = true).
  { unfold L1. change (colon :: 32 :: tool) with ([colon; 32] ++ tool).
    by rewrite !one_line_app, Htool. }
  assert (HL2 : one_line L2 = true).
  { unfold L2. change (colon :: 32 :: first) with ([colon; 32] ++ first).
    by rewrite !one_line_app, Hfirst. }
  assert (Hlines : splitlines
                     (block_text (thought, tool,
                                  join [newline] (first :: more), obs))
                   = splitlines (thought ++ [newline])
                       ++ L1 :: L2 :: more ++ l :: ls).
  { rewrite Etext, (splitlines_thought _ _ Hth), (splitlines_line _ _ HL1),
      (splitlines_lines _ _ _ HL2 Hmore).
    fold R2 in Hl. by rewrite Hl. }
  assert (Hc1 : contains_char colon L1 = true).
  { unfold L1. rewrite contains_char_app. cbn [contains_char existsb].
    rewrite N.eqb_refl. apply orb_true_r. }
  assert (Hc2 : contains_char colon L2 = true).
  { unfold L2. rewrite contains_char_app. cbn [contains_char existsb].
    rewrite N.eqb_refl. apply orb_true_r. }
  assert (Hb1 : before colon L1 = py "Action")
    by (apply before_app_sep; reflexivity).
  assert (Hb2 : before colon L2 = py "Action Input")
    by (apply before_app_sep; reflexivity).
  assert (Ha1 : after colon L1 = 32 :: tool)
    by (apply after_app_sep; reflexivity).
  assert (Ha2 : after colon L2 = 32 :: first)
    by (apply after_app_sep; reflexivity).
  rewrite (parse_output_action_lines _ (splitlines (thought ++ [newline]))
             more (l :: ls) L1 L2 Hlines Hpre Hc1)
    by (rewrite ?Hb1; done).
  rewrite Hb2, Ha1, Ha2.
  rewrite bool_decide_eq_false_2 by (intros E; by apply E).
  rewrite strip_space, Hts.
  rewrite before_no_sep by (by apply contains_char_space).
  rewrite strip_space, Hfs.
  change (py "\n") with [newline]. by rewrite (join_splitlines _ Hth).
Qed.

(** X10.  The text [run] appends for a final answer parses back to that
    answer, when the answer is one stripped line without colon and no line
    of the thought is a marker line. *)
Theorem parse_output_reads_answer (thought answer : str) :
  only_newlines thought = true ->
  Forall passed_over (splitlines (thought ++ py "\n")) ->
  one_line answer = true -> contains_char colon answer = false ->
  strip answer = answer ->
  parse_output (thought ++ py "\nFinal Answer: " ++ answer)
  = ([], Ok (answer_record answer thought)).
Proof.
  intros Hth Hpre Hans Hac Has.
  change (py "\n") with [newline] in *.
  set (L := py "Final Answer" ++ colon :: 32 :: answer).
  assert (Etext : thought ++ py "\nFinal Answer: " ++ answer
                  = thought ++ newline :: L).
  { assert (EF : py "\nFinal Answer: "
                 = newline :: py "Final Answer" ++ [colon; 32])
      by (vm_compute; reflexivity).
    rewrite EF. unfold L. cbn [app]. rewrite <- app_assoc. reflexivity. }
  assert (HL : one_line L = true).
  { unfold L. change (colon :: 32 :: answer) with ([colon; 32] ++ answer).
    by rewrite !one_line_app, Hans. }
  assert (Hlines : splitlines (thought ++ py "\nFinal Answer: " ++ answer)
                   = splitlines (thought ++ [newline]) ++ L :: []).
  { rewrite Etext, (splitlines_thought _ _ Hth).
    rewrite (splitlines_last L HL); [done|]. unfold L. vm_compute. discriminate. }
  assert (Hc : contains_char colon L = true).
  { unfold L. rewrite contains_char_app. cbn [contains_char existsb].
    rewrite N.eqb_refl. apply orb_true_r. }
  assert (Hb : before colon L = py "Final Answer")
    by (apply before_app_sep; reflexivity).
  assert (Ha : after colon L = 32 :: answer)
    by (apply after_app_sep; reflexivity).
  rewrite (parse_output_answer _ (splitlines (thought ++ [newline])) [] L
             Hlines Hpre Hc)
    by (rewrite Hb; reflexivity).
  rewrite Ha.
  rewrite before_no_sep by (by apply contains_char_space).
  rewrite strip_space, Has.
  change (py "\n") with [newline]. by rewrite (join_splitlines _ Hth).
Qed.

(** X8.  The other way an [Action] line can end: with the [Action] line as
    first marker line, the parser raises exactly when no line follows it or
    the line that follows has no colon; what it raises is the [IndexError]
    of an index out of range, after the warning if the following line is
    not [Action Input]. *)
Theorem parse_output_action_raises (output : str) (pre tail : list str)
    (line : str) :
  splitlines output = pre ++ line :: tail ->
  Forall passed_over pre ->
  contains_char colon line = true ->
  strip (before colon line) = py "Action" ->
  (match tail with
   | [] => True
   | next :: _ => contains_char colon next = false
   end ->
   parse_output output
   = (match tail with
      | [] => []
      | next :: _ =>
          if bool_decide (strip (before colon next) <> py "Action Input")
          then [action_input_warning] else []
      end,
      Raise (mkExn IndexError (py "list index out of range"))))
  /\ ((exists warn e, parse_output output = (warn, Raise e)) ->
      match tail with
      | [] => True
      | next :: _ => contains_char colon next = false
      end).
Proof.
  intros Hlines Hpre Hc Ha. split.
  - destruct tail as [|next rest]; intros Ht.
    + by apply (parse_output_action_last output pre line).
    + by apply (parse_output_action_no_colon output pre rest line next).
  - intros (warn & e & Hr). destruct tail as [|next rest]; [done|].
    destruct (contains_char colon next) eqn:Hn; [|done].
    rewrite (parse_output_action output pre rest line next) in Hr by done.
    discriminate.
Qed.

(** X7.  A [Final Answer] line as first marker line: the parser prints nothing
    and returns the record, whatever follows the line; the answer is the
    text between the first and the second colon of the line, trimmed, the
    thought the lines before.  A [Final Answer] line never makes the parser
    raise. *)
Theorem parse_output_final_answer (output : str) (pre rest : list str)
    (line : str) :
  splitlines output = pre ++ line :: rest ->
  Forall passed_over pre ->
  contains_char colon line = true ->
  strip (before colon line) = py "Final Answer" ->
  parse_output output
  = ([], Ok (answer_record (strip (before colon (after colon line)))
                            (join (py "\n") pre))).
Proof. apply parse_output_answer. Qed.

End Further.

(** ** The properties at the fixtures *)

#[local] Existing Instance example_env.

Example SUFFIX_parts :
  SUFFIX = py "Begin\n\nQuestion: " ++ py "{question}" ++ py "\n".
Proof. vm_compute. reflexivity. Qed.

(** A tool description with a replacement field of its own makes
    [create_prompt] raise. *)
Example create_prompt_braces :
  create_prompt templating_agent capital_question PREFIX SUFFIX INSTRUCTIONS
  = Some (Raise (mkExn KeyError (py "'expr'"))).
Proof. vm_compute. reflexivity. Qed.

(** C8 as stated fails: with a suffix that has no [{question}] field the
    prompt does not contain the question. *)
Lemma create_prompt_without_question :
  match create_prompt example_agent capital_question PREFIX (py "Begin")
                      INSTRUCTIONS with
  | Some (Ok prompt) => contains capital_question prompt = false
  | _ => False
  end.
Proof. vm_compute. reflexivity. Qed.

Lemma create_prompt_contents_witness :
  exists prompt,
    create_prompt example_agent capital_question PREFIX
                  (py "Begin\n\nQuestion: " ++ py "{question}" ++ py "\n")
                  INSTRUCTIONS
    = Some (Ok prompt)
    /\ contains capital_question prompt = true
    /\ contains (py "Search") prompt = true
    /\ contains (py "Always fails") prompt = true.
Proof.
  destruct (@create_prompt_contents example_env example_agent capital_question
              PREFIX INSTRUCTIONS
              (match @format example_env INSTRUCTIONS capital_question
                             (tool_names example_agent) with
               | Some (Ok text) => text
               | _ => []
               end)
              (py "Begin\n\nQuestion: ") (py "\n"))
    as (prompt & _ & Hc & Hq & Ht & _); try (vm_compute; reflexivity).
  exists prompt. split; [exact Hc|]. split; [exact Hq|]. split.
  - apply (Ht search_tool). apply elem_of_cons. left. reflexivity.
  - apply (Ht broken_tool). apply elem_of_cons. right.
    apply elem_of_cons. left. reflexivity.
Defined.

Lemma Agent_init_checks_witness :
  (exists msg,
      @Agent_init example_env stub_llm (ObjTool search_tool) (ObjInt 1)
      = Raise (mkExn TypeError msg))
  /\ (exists msg,
        @Agent_init example_env stub_llm (ObjStr (py "Search")) (ObjBool true)
        = Raise (mkExn TypeError msg))
  /\ @Agent_init example_env stub_llm (ObjList [ObjTool search_tool; ObjTool broken_tool])
                (ObjBool false)
     = Ok (@mkAgent example_env stub_llm
             (tools_of (ObjList [ObjTool search_tool; ObjTool broken_tool]))
             (bool_of (ObjBool false))).
Proof.
  split; [|split].
  - apply (proj1 (@Agent_init_checks example_env stub_llm
                    (ObjTool search_tool) (ObjInt 1))).
    reflexivity.
  - apply (proj1 (proj2 (@Agent_init_checks example_env stub_llm
                           (ObjStr (py "Search")) (ObjBool true)))).
    reflexivity.
  - apply (proj2 (proj2 (@Agent_init_checks example_env stub_llm
                           (ObjList [ObjTool search_tool; ObjTool broken_tool])
                           (ObjBool false)))); reflexivity.
Defined.


Lemma run_follows_steps_witness :
  exists st' before,
    run 2 capital_question (start example_agent)
    = Returned (mkResult (py "Paris") (before ++ py "Final Answer: " ++ py "Paris"))
               st'
    /\ count_events is_llm_call (trace st')
       = (count_events is_llm_call (trace (start example_agent)) + 2)%nat
    /\ count_events is_tool_call (trace st')
       = (count_events is_tool_call (trace (start example_agent)) + 1)%nat.
Proof.
  apply (proj2 (proj2 (@run_follows_steps example_env))
           (start example_agent) capital_question
           (initial_prompt example_agent capital_question)
           (py "Thought: I should search\nAction: Search\nAction Input: capital of France")
           (py "Thought: done\nFinal Answer: Paris")
           1%nat 1%nat 2%nat [] []
           (py "Search") (py "capital of France")
           (py "Thought: I should search") (py "Paris") (py "Paris")
           (py "Thought: done") search_tool);
    [vm_compute; reflexivity..|apply le_n].
Defined.

(** C4 as stated fails: what [run] raises on a response the parser cannot
    read is a [TypeError], not a lookup error. *)
Lemma run_unparsed_not_lookup_error :
  match run 1 capital_question (start confused_agent) with
  | Raised e _ => exn_cls e = TypeError /\ is_LookupError (exn_cls e) = false
  | _ => False
  end.
Proof. vm_compute. split; reflexivity. Qed.

Lemma run_unparsed_raises_witness :
  exists e,
    exn_cls e = TypeError
    /\ is_LookupError (exn_cls e) = false
    /\ (exists st',
          run_loop 1 (initial_prompt confused_agent capital_question)
                   (start confused_agent)
          = Raised e st')
    /\ (forall question,
          create_prompt (self (start confused_agent)) question
                        PREFIX SUFFIX INSTRUCTIONS
          = Some (Ok (initial_prompt confused_agent capital_question)) ->
          exists st', run 1 question (start confused_agent) = Raised e st').
Proof.
  apply (@run_unparsed_raises example_env (start confused_agent)
           (initial_prompt confused_agent capital_question)
           (py "no colons here") 1%nat [] (py "no colons here" ++ py "\n" ++ no_action_warning) O);
    vm_compute; reflexivity.
Defined.

(** ** The further properties at the fixtures *)

Ltac passed_over_lines :=
  repeat constructor;
  intros Hc; first [vm_compute in Hc; discriminate Hc
                   |split; vm_compute; discriminate].

Lemma tool_dict_last_wins_witness :
  tool_dict shadowed_agent !! name shadow_tool = Some shadow_tool.
Proof.
  apply (tool_dict_last_wins shadowed_agent [search_tool; broken_tool] []
           shadow_tool); [reflexivity|constructor].
Defined.

Lemma tool_dict_lookup_sound_witness :
  name shadow_tool = py "Search" /\ shadow_tool ∈ _tools shadowed_agent.
Proof.
  apply (tool_dict_lookup_sound shadowed_agent (py "Search") shadow_tool).
  vm_compute. reflexivity.
Defined.

Lemma tool_dict_names_witness :
  is_Some (tool_dict example_agent !! py "Broken").
Proof.
  apply (proj2 (tool_dict_names example_agent (py "Broken"))).
  apply elem_of_cons. right. apply elem_of_cons. left. reflexivity.
Defined.

Lemma tool_dict_unique_names_witness :
  size (tool_dict example_agent) = length (_tools example_agent)
  /\ forall t, t ∈ _tools example_agent ->
       tool_dict example_agent !! name t = Some t.
Proof.
  apply (tool_dict_unique_names example_agent).
  apply (bool_decide_unpack _). vm_compute. reflexivity.
Defined.

Lemma parse_output_tool_call_witness :
  parse_output (py "Thought: look it up\nAction: Search\nAction Input: line one\nextra line\nObservation: x\nFinal Answer: no")
  = (if bool_decide (strip (before colon (py "Action Input: line one"))
                     <> py "Action Input")
     then [action_input_warning] else [],
     Ok (tool_record
           (strip (after colon (py "Action: Search")))
           (join (py "\n")
                 (strip (before colon (after colon (py "Action Input: line one")))
                    :: [py "extra line"]))
           (join (py "\n") [py "Thought: look it up"]))).
Proof.
  apply (parse_output_tool_call _ [py "Thought: look it up"]
           [py "extra line"] [py "Observation: x"; py "Final Answer: no"]
           (py "Action: Search") (py "Action Input: line one"));
    try (vm_compute; reflexivity).
  - passed_over_lines.
  - repeat constructor.
Defined.

Lemma parse_output_final_answer_witness :
  parse_output (py "Thought: done\nFinal Answer: Paris\nAction: Search")
  = ([], Ok (answer_record
               (strip (before colon (after colon (py "Final Answer: Paris"))))
               (join (py "\n") [py "Thought: done"]))).
Proof.
  apply (parse_output_final_answer _ [py "Thought: done"] [py "Action: Search"]
           (py "Final Answer: Paris"));
    try (vm_compute; reflexivity).
  passed_over_lines.
Defined.

Lemma parse_output_action_raises_witness :
  parse_output (py "Thought: hm\nAction: Search\nfor Paris")
  = (if bool_decide (strip (before colon (py "for Paris")) <> py "Action Input")
     then [action_input_warning] else [],
     Raise (mkExn IndexError (py "list index out of range"))).
Proof.
  apply (proj1 (parse_output_action_raises
                  (py "Thought: hm\nAction: Search\nfor Paris")
                  [py "Thought: hm"] [py "for Paris"] (py "Action: Search")
                  ltac:(vm_compute; reflexivity) ltac:(passed_over_lines)
                  ltac:(vm_compute; reflexivity) ltac:(vm_compute; reflexivity))).
  vm_compute. reflexivity.
Defined.

Lemma parse_output_reads_block_witness :
  parse_output
    (block_text (py "Thought: look it up", py "Search",
                 join (py "\n") [py "capital of France"; py "in one word"],
                 py "Paris"))
  = ([], Ok (tool_record (py "Search")
               (join (py "\n") [py "capital of France"; py "in one word"])
               (py "Thought: look it up"))).
Proof.
  apply (parse_output_reads_block (py "Thought: look it up") (py "Search")
           (py "capital of France") (py "Paris") [py "in one word"]);
    try (vm_compute; reflexivity).
  - change (splitlines (py "Thought: look it up" ++ py "\n"))
      with [py "Thought: look it up"].
    passed_over_lines.
  - repeat constructor.
  - repeat constructor.
Defined.

Lemma parse_output_reads_answer_witness :
  parse_output (py "Thought: done" ++ py "\nFinal Answer: " ++ py "Paris")
  = ([], Ok (answer_record (py "Paris") (py "Thought: done"))).
Proof.
  apply (parse_output_reads_answer (py "Thought: done") (py "Paris"));
    try (vm_compute; reflexivity).
  change (splitlines (py "Thought: done" ++ py "\n")) with [py "Thought: done"].
  passed_over_lines.
Defined.

Lemma run_calls_witness :
  exists n,
    (n <= 2)%nat
    /\ count_events is_llm_call
         (trace (final (run 2 capital_question (start example_agent))))
       = (count_events is_llm_call (trace (start example_agent)) + n)%nat
    /\ (count_events is_tool_call (trace (start example_agent))
        <= count_events is_tool_call
             (trace (final (run 2 capital_question (start example_agent))))
        <= count_events is_tool_call (trace (start example_agent)) + n)%nat
    /\ match run 2 capital_question (start example_agent) with
       | Running _ _ => n = 2%nat
       | Returned _ _ => (1 <= n)%nat
       | _ => True
       end.
Proof.
  apply (run_calls 2 capital_question (start example_agent)
           (final (run 2 capital_question (start example_agent)))).
  vm_compute. reflexivity.
Defined.

Lemma run_raises_only_witness :
  create_prompt (self (start confused_agent)) capital_question
                PREFIX SUFFIX INSTRUCTIONS
  = Some (Raise (mkExn TypeError
                   (py "string indices must be integers, not 'str'")))
  \/ (exists p w w',
         _llm (self (start confused_agent)) p w
         = (Raise (mkExn TypeError
                     (py "string indices must be integers, not 'str'")), w'))
  \/ mkExn TypeError (py "string indices must be integers, not 'str'")
     = mkExn IndexError (py "list index out of range")
  \/ mkExn TypeError (py "string indices must be integers, not 'str'")
     = mkExn TypeError (py "string indices must be integers, not 'str'")
  \/ (is_Exception
        (exn_cls (mkExn TypeError
                    (py "string indices must be integers, not 'str'")))
      = false
      /\ exists tool_name the_tool tool_input w w',
           tool_dict (self (start confused_agent)) !! tool_name = Some the_tool
           /\ func the_tool tool_input w
              = (Raise (mkExn TypeError
                          (py "string indices must be integers, not 'str'")),
                 w')).
Proof.
  apply (run_raises_only 1 capital_question (start confused_agent)
           (final (run 1 capital_question (start confused_agent)))).
  vm_compute. reflexivity.
Defined.

Lemma run_unknown_tool_witness :
  exists st',
    run_loop 2 (py "Q")
      (start (scripted_agent [py "Action: Calc\nAction Input: 1+1"] false))
    = run_loop 1
        (py "Q" ++ [] ++ py "\nAction: " ++ py "Calc"
           ++ py "\nAction Input: " ++ py "1+1"
           ++ py "\nObservation: "
           ++ (py "No tool with the name " ++ py "Calc" ++ py " found")
           ++ py "\n")
        st'
    /\ world st' = 1%nat
    /\ count_events is_tool_call (trace st')
       = count_events is_tool_call
           (trace (start (scripted_agent
                            [py "Action: Calc\nAction Input: 1+1"] false))).
Proof.
  apply (run_unknown_tool 1
           (start (scripted_agent [py "Action: Calc\nAction Input: 1+1"] false))
           (py "Q") (py "Action: Calc\nAction Input: 1+1") 1%nat []
           (py "Calc") (py "1+1") []);
    vm_compute; reflexivity.
Defined.

Lemma run_failing_tool_witness :
  exists st',
    run_loop 2 (py "Q")
      (start (scripted_agent [py "Action: Broken\nAction Input: x"] false))
    = run_loop 1
        (py "Q" ++ [] ++ py "\nAction: " ++ py "Broken"
           ++ py "\nAction Input: " ++ py "x"
           ++ py "\nObservation: "
           ++ (py "Tool encountered an error: "
                 ++ exn_str (mkExn OtherException (py "boom")))
           ++ py "\n")
        st'
    /\ world st' = 1%nat.
Proof.
  apply (run_failing_tool 1
           (start (scripted_agent [py "Action: Broken\nAction Input: x"] false))
           (py "Q") (py "Action: Broken\nAction Input: x") 1%nat 1%nat []
           (py "Broken") (py "x") [] broken_tool
           (mkExn OtherException (py "boom")));
    vm_compute; reflexivity.
Defined.

Lemma run_fatal_tool_witness :
  exists st',
    run_loop 2 (py "Q")
      (start (scripted_agent [py "Action: Wait\nAction Input: x"] false))
    = Raised (mkExn KeyboardInterrupt []) st'
    /\ world st' = 1%nat.
Proof.
  apply (run_fatal_tool 1
           (start (scripted_agent [py "Action: Wait\nAction Input: x"] false))
           (py "Q") (py "Action: Wait\nAction Input: x") 1%nat 1%nat []
           (py "Wait") (py "x") [] interrupted_tool
           (mkExn KeyboardInterrupt []));
    vm_compute; reflexivity.
Defined.

Lemma run_uncaught_witness :
  exists st',
    run_loop 1 (py "Q") (start failing_agent)
    = Raised (mkExn OtherException (py "model offline")) st'
    /\ count_events is_tool_call (trace st')
       = count_events is_tool_call (trace (start failing_agent)).
Proof.
  apply (run_uncaught 0 (start failing_agent) (py "Q")
           (mkExn OtherException (py "model offline"))).
  left. exists O. vm_compute. reflexivity.
Defined.

Lemma run_verbose_independent_witness :
  same_outcome
    (run 3 capital_question
       (start (scripted_agent [py "Action: Search\nAction Input: Paris"] true)))
    (run 3 capital_question
       (start (scripted_agent [py "Action: Search\nAction Input: Paris"] false))).
Proof.
  apply run_verbose_independent. repeat split.
Defined.

Lemma create_prompt_description_field_witness :
  create_prompt templating_agent capital_question PREFIX SUFFIX INSTRUCTIONS
  = Some (Raise (mkExn KeyError (py "'expr'"))).
Proof.
  apply (create_prompt_description_field templating_agent [] [] templating_tool
           (py "Evaluates ") (py "expr") []);
    vm_compute; reflexivity.
Defined.

Lemma run_description_field_witness :
  run 5 capital_question (start templating_agent)
  = Raised (mkExn KeyError (py "'expr'")) (start templating_agent).
Proof.
  apply (run_description_field 5 (start templating_agent) [] [] templating_tool
           (py "Evaluates ") (py "expr") []);
    vm_compute; reflexivity.
Defined.

Lemma create_prompt_default_text_witness :
  exists head tail,
    INSTRUCTIONS = head ++ py "{tool_names}" ++ tail
    /\ create_prompt example_agent (py "What is {x}?") PREFIX SUFFIX INSTRUCTIONS
       = Some (Ok (PREFIX ++ py "\n\n"
                     ++ join (py "\n\n") (map tool_entry (_tools example_agent))
                     ++ py "\n\n"
                     ++ (head ++ str_of_list (tool_names example_agent) ++ tail)
                     ++ py "\n\n" ++ py "Begin\n\nQuestion: "
                     ++ py "What is {x}?" ++ py "\n")).
Proof.
  apply (create_prompt_default_text example_agent (py "What is {x}?")).
  vm_compute. reflexivity.
Defined.

Lemma Agent_init_messages_witness :
  @Agent_init example_env stub_llm (ObjList [ObjTool search_tool; ObjNone])
    (ObjInt 1)
  = Raise (mkExn TypeError (py "All tools must be langchain Tool objects"))
  /\ @Agent_init example_env stub_llm (ObjTool search_tool) ObjNone
     = Raise (mkExn TypeError
                (py "verbose must be bool, got " ++ type_repr ObjNone)).
Proof.
  split.
  - apply (proj1 (@Agent_init_messages example_env stub_llm
                    (ObjList [ObjTool search_tool; ObjNone]) (ObjInt 1))).
    reflexivity.
  - apply (proj2 (@Agent_init_messages example_env stub_llm
                    (ObjTool search_tool) ObjNone)); reflexivity.
Defined.

Lemma setters_round_trip_witness :
  set_tools example_agent (ObjList (map ObjTool (_tools example_agent)))
  = Ok example_agent
  /\ (_llm (@mkAgent example_env stub_llm [broken_tool] false)
      = _llm example_agent
      /\ _verbose (@mkAgent example_env stub_llm [broken_tool] false)
         = _verbose example_agent
      /\ _tools (@mkAgent example_env stub_llm [broken_tool] false)
         = tools_of (ObjTool broken_tool)
      /\ tool_or_tools (ObjTool broken_tool) = true).
Proof.
  split.
  - apply (proj1 (proj2 (setters_round_trip example_agent))).
  - apply (proj1 (proj2 (proj2 (proj2 (proj2
             (setters_round_trip example_agent)))))
             (ObjTool broken_tool)).
    reflexivity.
Defined.
